(** * Storefront components: overlay coordinator, menus, cart controls

    A shallow embedding of the logic of the storefront's React components
    ([app/components/*.tsx]) together with the properties stated about them.

    Conventions of the embedding:
    - a React state cell ([useState]) or ref ([useRef]) is an explicit value
      that the handlers take and return;
    - a value that may be [null]/[undefined] is an [option];
    - a call that may [throw] returns a [result];
    - JavaScript strings are [string]s, compared code unit by code unit;
    - cart quantities (GraphQL [Int]) are integers [Z]. *)

From Stdlib Require Import ZArith List Bool String Ascii Lia.
Import ListNotations.

Open Scope string_scope.
Open Scope list_scope.
Open Scope bool_scope.

(** ** Shared JavaScript helpers *)

(** Outcome of a call that either returns or throws [new Error(msg)]. *)
Inductive result (A : Type) : Type :=
| Ok (a : A)
| Throw (msg : string).
Arguments Ok {A} a.
Arguments Throw {A} msg.

(** [a ?? b]: the left operand unless it is nullish. *)
Definition nullish {A : Type} (a : option A) (b : A) : A :=
  match a with
  | Some x => x
  | None => b
  end.

(** [s.startsWith(p)] *)
Definition startsWith (s p : string) : bool := String.prefix p s.

(** [s.includes(sub)]: [sub] occurs in [s] at some position. *)
Fixpoint includes (s sub : string) : bool :=
  if String.prefix sub s then true
  else match s with
       | EmptyString => false
       | String _ rest => includes rest sub
       end.

(** ** [Aside.tsx]: the overlay coordinator *)
Module Aside.

(** [type AsideType = 'search' | 'cart' | 'mobile' | 'closed'] *)
Inductive AsideType : Type := search | cart | mobile | closed.

(** [a === b] on [AsideType]. *)
Definition AsideType_eqb (a b : AsideType) : bool :=
  match a, b with
  | search, search | cart, cart | mobile, mobile | closed, closed => true
  | _, _ => false
  end.

Definition all_types : list AsideType := [closed; search; cart; mobile].

(** [AsideContextValue]: the setters are given by the value they store
    into the provider's state cell. *)
Record AsideContextValue : Type := {
  type : AsideType;
  open : AsideType -> AsideType;
  close : unit -> AsideType
}.

(** [useState<AsideType>('closed')] *)
Definition initial : AsideType := closed.

(** [Aside.Provider]: the context value built from the state cell [st];
    [open: setType], [close: () => setType('closed')]. *)
Definition AsideProvider (st : AsideType) : AsideContextValue :=
  {| type := st;
     open := fun mode => mode;
     close := fun _ => closed |}.

(** [createContext<AsideContextValue | null>(null)]: what [useContext]
    sees is [None] outside a provider and the provider's value inside. *)
Definition AsideContext_default : option AsideContextValue := None.

Definition useAside_message : string :=
  "useAside must be used within an AsideProvider".

(** [useAside()] *)
Definition useAside (ctx : option AsideContextValue)
  : result AsideContextValue :=
  match ctx with
  | None => Throw useAside_message
  | Some aside => Ok aside
  end.

(** The calls a client can make on the coordinator. *)
Inductive op : Type :=
| Open (mode : AsideType)
| Close.

(** One call, through the context value of the current render. *)
Definition step (st : AsideType) (o : op) : AsideType :=
  match o with
  | Open mode => open (AsideProvider st) mode
  | Close => close (AsideProvider st) tt
  end.

Definition run (st : AsideType) (ops : list op) : AsideType :=
  fold_left step ops st.

(** [current()]: the [type] field read through the context. *)
Definition current (st : AsideType) : AsideType := type (AsideProvider st).

(** [const expanded = type === activeType] in [Aside]. *)
Definition expanded (ty activeType : AsideType) : bool :=
  AsideType_eqb ty activeType.

(** *** Keyboard handling *)

Record KeyboardEvent : Type := {
  key : string;
  metaKey : bool
}.

Definition Escape : KeyboardEvent := {| key := "Escape"; metaKey := false |}.

(** What a [keydown] listener does when it runs. *)
Inductive action : Type :=
| CallClose
| PreventDefault
| FocusInput
| BlurInput.

Definition action_eqb (a b : action) : bool :=
  match a, b with
  | CallClose, CallClose | PreventDefault, PreventDefault
  | FocusInput, FocusInput | BlurInput, BlurInput => true
  | _, _ => false
  end.

Definition listener : Type := KeyboardEvent -> list action.

(** The [handler] registered by the effect of [Aside]. *)
Definition Aside_handler : listener :=
  fun event => if (key event =? "Escape")%string then [CallClose] else [].

(** The effect of one mounted [<Aside type=ty>]: a listener is on the
    document exactly while [expanded]. *)
Definition Aside_effect (ty activeType : AsideType) : list listener :=
  if expanded ty activeType then [Aside_handler] else [].

(** [handleKeyDown] of [useFocusOnCmdK] in [SearchForm.tsx]. *)
Definition handleKeyDown : listener :=
  fun event =>
    (if (key event =? "k")%string && metaKey event
     then [PreventDefault; FocusInput] else [])
    ++ (if (key event =? "Escape")%string then [BlurInput] else []).

(** The asides mounted by [PageLayout]: [CartAside], [SearchAside] and,
    when the header has a menu and a primary domain url,
    [MobileMenuAside]. *)
Definition PageLayout_asides (hasMobileMenu : bool) : list AsideType :=
  [cart; search] ++ (if hasMobileMenu then [mobile] else []).

(** Listeners on the document once the effects of a render with active
    panel [activeType] have run; [searchForm] tells whether a
    [SearchForm] is mounted as well. *)
Definition document_listeners (hasMobileMenu searchForm : bool)
           (activeType : AsideType) : list listener :=
  flat_map (fun ty => Aside_effect ty activeType)
           (PageLayout_asides hasMobileMenu)
  ++ (if searchForm then [handleKeyDown] else []).

(** Dispatching an event runs every listener, in registration order. *)
Definition dispatch (ls : list listener) (event : KeyboardEvent)
  : list action :=
  flat_map (fun l => l event) ls.

Definition close_calls (acts : list action) : nat :=
  List.length (filter (action_eqb CallClose) acts).

(** The coordinator's state after the listeners' actions. *)
Definition apply_action (st : AsideType) (a : action) : AsideType :=
  match a with
  | CallClose => step st Close
  | _ => st
  end.

Definition keydown (hasMobileMenu searchForm : bool) (st : AsideType)
           (event : KeyboardEvent) : AsideType :=
  fold_left apply_action
            (dispatch (document_listeners hasMobileMenu searchForm st) event)
            st.

End Aside.

(** ** [AddToCartButton.tsx] *)
Module AddToCartButton.

(** [fetcher.state] of the cart form's fetcher. *)
Inductive FetcherState : Type := idle | submitting | loading.

(** [state !== 'idle'] *)
Definition not_idle (state : FetcherState) : bool :=
  match state with
  | idle => false
  | submitting | loading => true
  end.

(** The [disabled] attribute of the submit button:
    [disabled ?? fetcher.state !== 'idle']. *)
Definition button_disabled (disabled : option bool) (state : FetcherState)
  : bool :=
  nullish disabled (not_idle state).

End AddToCartButton.

(** ** [CartSummary]: the gift card controls *)
Module CartSummary.

(** The two refs of [CartGiftCard]: [appliedGiftCardCodes.current] and
    the value of the input behind [giftCardCodeInput]. *)
Record GiftCardState : Type := {
  appliedGiftCardCodes : list string;
  giftCardCodeInput : string
}.

(** [useRef<string[]>([])] *)
Definition initial (input : string) : GiftCardState :=
  {| appliedGiftCardCodes := []; giftCardCodeInput := input |}.

(** The characters matched by [\s] among the first 128 code units. *)
Definition is_space (c : ascii) : bool :=
  let n := nat_of_ascii c in
  ((9 <=? n)%nat && (n <=? 13)%nat) || (n =? 32)%nat.

(** [code.replace(/\s/g, '')] *)
Fixpoint remove_spaces (code : string) : string :=
  match code with
  | EmptyString => EmptyString
  | String c rest =>
      if is_space c then remove_spaces rest
      else String c (remove_spaces rest)
  end.

(** [saveAppliedCode(code)] *)
Definition saveAppliedCode (code : string) (st : GiftCardState)
  : GiftCardState :=
  let formattedCode := remove_spaces code in
  {| appliedGiftCardCodes :=
       if existsb (String.eqb formattedCode) (appliedGiftCardCodes st)
       then appliedGiftCardCodes st
       else appliedGiftCardCodes st ++ [formattedCode];
     giftCardCodeInput := "" |}.

(** [removeAppliedCode()] *)
Definition removeAppliedCode (st : GiftCardState) : GiftCardState :=
  {| appliedGiftCardCodes := [];
     giftCardCodeInput := giftCardCodeInput st |}.

(** The handler bound on the "Remove" button,
    [onSubmit={() => removeAppliedCode}]: it evaluates to the function
    [removeAppliedCode] and calls nothing, so the refs keep their value. *)
Definition Remove_onSubmit (st : GiftCardState)
  : GiftCardState * (GiftCardState -> GiftCardState) :=
  (st, removeAppliedCode).

(** The request a [CartForm] with action [GiftCardCodesUpdate] submits. *)
Record GiftCardCodesUpdate : Type := { giftCardCodes : list string }.

(** [inputs={{giftCardCodes: giftCardCodes || []}}] of
    [UpdateGiftCardForm]. *)
Definition UpdateGiftCardForm_inputs (codes : option (list string))
  : GiftCardCodesUpdate :=
  {| giftCardCodes := nullish codes [] |}.

(** Activating "Remove": the button submits the enclosing
    [UpdateGiftCardForm], which was given no [giftCardCodes]; the only
    client code attached to the control is [Remove_onSubmit], and whether
    or not the browser runs it the refs keep their value. *)
Definition Remove_activate (st : GiftCardState)
  : GiftCardState * GiftCardCodesUpdate :=
  (fst (Remove_onSubmit st), UpdateGiftCardForm_inputs None).

(** Activating "Apply": the second form submits the current codes, and on
    the render that sees [fetcher.formData] with a non-empty
    [giftCardCode] the code is saved. *)
Definition Apply_activate (code : string) (st : GiftCardState)
  : GiftCardState * GiftCardCodesUpdate :=
  ((if (code =? "")%string then st else saveAppliedCode code st),
   UpdateGiftCardForm_inputs (Some (appliedGiftCardCodes st))).

End CartSummary.

(** ** The platform's [URL] class

    [new URL(s)] for the urls a menu item carries: an absolute hierarchical
    url [scheme://authority path ?query #fragment] parses, and a relative
    reference such as [/collections] throws [TypeError: Invalid URL], as it
    does without a base.  The path is returned as written (no dot-segment
    or percent-encoding normalisation); urls without [//] after the scheme
    ([mailto:], [data:]) are outside this model. *)
Module URL.

Record t : Type := {
  protocol : string;
  host : string;
  pathname : string
}.

Definition is_alpha (c : ascii) : bool :=
  let n := nat_of_ascii c in
  ((65 <=? n)%nat && (n <=? 90)%nat) || ((97 <=? n)%nat && (n <=? 122)%nat).

Definition is_scheme_char (c : ascii) : bool :=
  let n := nat_of_ascii c in
  is_alpha c || ((48 <=? n)%nat && (n <=? 57)%nat)
  || (n =? 43)%nat || (n =? 45)%nat || (n =? 46)%nat.

Fixpoint all_chars (p : ascii -> bool) (s : string) : bool :=
  match s with
  | EmptyString => true
  | String c rest => p c && all_chars p rest
  end.

Definition is_scheme (s : string) : bool :=
  match s with
  | EmptyString => false
  | String c rest => is_alpha c && all_chars is_scheme_char rest
  end.

(** Longest prefix without a character of [stop], and the remainder. *)
Fixpoint span_until (stop : ascii -> bool) (s : string) : string * string :=
  match s with
  | EmptyString => (EmptyString, EmptyString)
  | String c rest =>
      if stop c then (EmptyString, s)
      else let (a, b) := span_until stop rest in (String c a, b)
  end.

Definition ends_authority (c : ascii) : bool :=
  let n := nat_of_ascii c in (n =? 47)%nat || (n =? 63)%nat || (n =? 35)%nat.

Definition ends_path (c : ascii) : bool :=
  let n := nat_of_ascii c in (n =? 63)%nat || (n =? 35)%nat.

Definition invalid : string := "Invalid URL".

Definition parse (s : string) : result t :=
  match String.index 0 "://" s with
  | None => Throw invalid
  | Some n =>
      let scheme := String.substring 0 n s in
      let rest := String.substring (n + 3) (String.length s - (n + 3)) s in
      let (authority, tail) := span_until ends_authority rest in
      let (path, _) := span_until ends_path tail in
      if is_scheme scheme && negb (authority =? "")%string
      then Ok {| protocol := scheme ++ ":";
                 host := authority;
                 pathname := if (path =? "")%string then "/" else path |}
      else Throw invalid
  end.

End URL.

(** ** [Header.tsx] and [Footer.tsx]: menus *)
Module Menu.

(** A menu item of the storefront API; [url] may be absent. *)
#[local] Unset Elimination Schemes.
Inductive MenuItem : Type :=
  mkItem (id : string) (resourceId : option string) (tags : list string)
         (title : string) (type : string) (url : option string)
         (items : list MenuItem).
#[local] Set Elimination Schemes.

Definition id (i : MenuItem) : string :=
  match i with mkItem x _ _ _ _ _ _ => x end.
Definition title (i : MenuItem) : string :=
  match i with mkItem _ _ _ x _ _ _ => x end.
Definition url (i : MenuItem) : option string :=
  match i with mkItem _ _ _ _ _ x _ => x end.

Record MenuT : Type := {
  menu_id : string;
  items : list MenuItem
}.

Definition FALLBACK_HEADER_MENU : MenuT :=
  {| menu_id := "gid://shopify/Menu/199655587896";
     items :=
       [ mkItem "gid://shopify/MenuItem/461609500728" None []
                "Collections" "HTTP" (Some "/collections") [];
         mkItem "gid://shopify/MenuItem/461609533496" None []
                "Blog" "HTTP" (Some "/blogs/journal") [];
         mkItem "gid://shopify/MenuItem/461609566264" None []
                "Policies" "HTTP" (Some "/policies") [];
         mkItem "gid://shopify/MenuItem/461609599032"
                (Some "gid://shopify/Page/92591030328") []
                "About" "PAGE" (Some "/pages/about") [] ] |}.

Definition FALLBACK_FOOTER_MENU : MenuT :=
  {| menu_id := "gid://shopify/Menu/199655620664";
     items :=
       [ mkItem "gid://shopify/MenuItem/461633060920"
                (Some "gid://shopify/ShopPolicy/23358046264") []
                "Privacy Policy" "SHOP_POLICY"
                (Some "/policies/privacy-policy") [];
         mkItem "gid://shopify/MenuItem/461633093688"
                (Some "gid://shopify/ShopPolicy/23358013496") []
                "Refund Policy" "SHOP_POLICY"
                (Some "/policies/refund-policy") [];
         mkItem "gid://shopify/MenuItem/461633126456"
                (Some "gid://shopify/ShopPolicy/23358111800") []
                "Shipping Policy" "SHOP_POLICY"
                (Some "/policies/shipping-policy") [];
         mkItem "gid://shopify/MenuItem/461633159224"
                (Some "gid://shopify/ShopPolicy/23358079032") []
                "Terms of Service" "SHOP_POLICY"
                (Some "/policies/terms-of-service") [] ] |}.

(** The test both menus apply to [item.url]. *)
Definition is_internal (item_url publicStoreDomain primaryDomainUrl : string)
  : bool :=
  includes item_url "myshopify.com"
  || includes item_url publicStoreDomain
  || includes item_url primaryDomainUrl.

(** [const url = ... ? new URL(item.url).pathname : item.url] *)
Definition link_url (item_url publicStoreDomain primaryDomainUrl : string)
  : result string :=
  if is_internal item_url publicStoreDomain primaryDomainUrl
  then match URL.parse item_url with
       | Ok u => Ok (URL.pathname u)
       | Throw msg => Throw msg
       end
  else Ok item_url.

(** What an item is rendered as. *)
Inductive element : Type :=
| NavLink (key : option string) (to : string) (text : string)
| NewTabAnchor (key : string) (href : string) (text : string).

(** [items.map(f)] where [f] may throw and may return [null]. *)
Fixpoint map_items (f : MenuItem -> result (option element))
         (l : list MenuItem) : result (list element) :=
  match l with
  | [] => Ok []
  | i :: rest =>
      match f i with
      | Throw msg => Throw msg
      | Ok e =>
          match map_items f rest with
          | Throw msg => Throw msg
          | Ok es => Ok (match e with Some x => x :: es | None => es end)
          end
      end
  end.

(** [!item.url] *)
Definition truthy (s : option string) : option string :=
  match s with
  | Some u => if (u =? "")%string then None else Some u
  | None => None
  end.

Inductive Viewport : Type := desktop | mobile.

Definition HeaderMenu_item (publicStoreDomain primaryDomainUrl : string)
           (item : MenuItem) : result (option element) :=
  match truthy (url item) with
  | None => Ok None
  | Some item_url =>
      match link_url item_url publicStoreDomain primaryDomainUrl with
      | Throw msg => Throw msg
      | Ok u => Ok (Some (NavLink (Some (id item)) u (title item)))
      end
  end.

(** [HeaderMenu]: the children of the [nav]. *)
Definition HeaderMenu (menu : option MenuT) (primaryDomainUrl : string)
           (viewport : Viewport) (publicStoreDomain : string)
  : result (list element) :=
  match map_items (HeaderMenu_item publicStoreDomain primaryDomainUrl)
                  (items (nullish menu FALLBACK_HEADER_MENU)) with
  | Throw msg => Throw msg
  | Ok es =>
      Ok (match viewport with
          | mobile => NavLink None "/" "Home" :: es
          | desktop => es
          end)
  end.

Definition FooterMenu_item (publicStoreDomain primaryDomainUrl : string)
           (item : MenuItem) : result (option element) :=
  match truthy (url item) with
  | None => Ok None
  | Some item_url =>
      match link_url item_url publicStoreDomain primaryDomainUrl with
      | Throw msg => Throw msg
      | Ok u =>
          let isExternal := negb (startsWith u "/") in
          Ok (Some (if isExternal
                    then NewTabAnchor (id item) u (title item)
                    else NavLink (Some (id item)) u (title item)))
      end
  end.

(** [FooterMenu]: the children of the [nav]. *)
Definition FooterMenu (menu : option MenuT)
           (primaryDomainUrl publicStoreDomain : string)
  : result (list element) :=
  map_items (FooterMenu_item publicStoreDomain primaryDomainUrl)
            (items (nullish menu FALLBACK_FOOTER_MENU)).

(** [FooterQuery] and the part of [HeaderQuery] the components read. *)
Record FooterQuery : Type := { footer_menu : option MenuT }.

Record HeaderQuery : Type := {
  shop_name : string;
  primaryDomain_url : string;
  header_menu : option MenuT
}.

(** [Footer]: the children of the [footer] element once the promise has
    resolved to [footer]; the menu is rendered under the guard
    [footer?.menu && header.shop.primaryDomain?.url]. *)
Definition Footer (footer : option FooterQuery) (header : HeaderQuery)
           (publicStoreDomain : string) : result (list element) :=
  match footer with
  | None => Ok []
  | Some fq =>
      match footer_menu fq, truthy (Some (primaryDomain_url header)) with
      | Some m, Some primaryDomainUrl =>
          FooterMenu (Some m) primaryDomainUrl publicStoreDomain
      | _, _ => Ok []
      end
  end.

(** [Header]: the links of the desktop [HeaderMenu]. *)
Definition Header (header : HeaderQuery) (publicStoreDomain : string)
  : result (list element) :=
  HeaderMenu (header_menu header) (primaryDomain_url header)
             desktop publicStoreDomain.

(** A header query without a menu, for a shop at [example.com]. *)
Definition example_header : HeaderQuery :=
  {| shop_name := "Example";
     primaryDomain_url := "https://example.com";
     header_menu := None |}.

(** The classification as the specification words it, to be compared with
    [is_internal]: a link is internal when the host of its url contains the
    commerce-platform domain, the public store domain or the primary
    domain. *)
Definition spec_is_internal
           (item_url platformDomain publicStoreDomain primaryDomain : string)
  : bool :=
  match URL.parse item_url with
  | Ok u =>
      includes (URL.host u) platformDomain
      || includes (URL.host u) publicStoreDomain
      || includes (URL.host u) primaryDomain
  | Throw _ => false
  end.

End Menu.

(** ** [CartMain.tsx], [CartLineItem.tsx]: the cart *)
Module Cart.

Open Scope Z_scope.

(** Modelled from the spec: the generated storefront API types are not
    part of the sources; a cart line and a confirmed cart follow the data
    model of section 3 ([lineId] is the [id] the components read). *)
Record CartLine : Type := {
  lineId : string;
  merchandiseId : string;
  quantity : Z;
  unitPrice : Z;
  attributes : list (string * string)
}.

Record CartSnapshot : Type := {
  lines : list CartLine;
  discountCodes : list string;
  giftCardCodes : list string;
  totalQuantity : Z;
  cost : Z
}.

(** Modelled from the spec: a pending cart mutation (section 3); the
    cart form inputs of the SDK are not part of the sources. *)
Inductive PendingIntent : Type :=
| AddLine (merchandise : string) (qty : Z)
| UpdateLine (line : string) (qty : Z)
| RemoveLines (lineIds : list string)
| ApplyDiscount (codes : list string)
| ApplyGiftCard (code : string).

(** Modelled from the spec: the cart a component renders, the value of
    [useOptimisticCart], whose type is not part of the sources; the fields
    of the snapshot and the [isOptimistic] mark of section 4.2. *)
Record ProjectedCart : Type := {
  p_lines : list CartLine;
  p_discountCodes : list string;
  p_giftCardCodes : list string;
  p_totalQuantity : Z;
  p_cost : Z;
  isOptimistic : bool
}.

(** The plain rendering of a confirmed snapshot. *)
Definition plain (s : CartSnapshot) : ProjectedCart :=
  {| p_lines := lines s;
     p_discountCodes := discountCodes s;
     p_giftCardCodes := giftCardCodes s;
     p_totalQuantity := totalQuantity s;
     p_cost := cost s;
     isOptimistic := false |}.

Definition sum_quantities (ls : list CartLine) : Z :=
  fold_right (fun l acc => quantity l + acc) 0 ls.

Definition set_quantity (q : Z) (l : CartLine) : CartLine :=
  {| lineId := lineId l;
     merchandiseId := merchandiseId l;
     quantity := q;
     unitPrice := unitPrice l;
     attributes := attributes l |}.

(** *** The quantity controls of [CartLineQuantity] *)

(** [Number(Math.max(0, quantity - 1).toFixed(0))] *)
Definition prevQuantity (q : Z) : Z := Z.max 0 (q - 1).

(** [Number((quantity + 1).toFixed(0))] *)
Definition nextQuantity (q : Z) : Z := q + 1.

Inductive control : Type := Decrease | Increase | Remove.

(** The [disabled] attribute of each button. *)
Definition control_disabled (c : control) (q : Z) (optimistic : bool)
  : bool :=
  match c with
  | Decrease => (q <=? 1) || optimistic
  | Increase => optimistic
  | Remove => optimistic
  end.

(** The cart form input behind each button. *)
Definition control_intent (c : control) (line : string) (q : Z)
  : PendingIntent :=
  match c with
  | Decrease => UpdateLine line (prevQuantity q)
  | Increase => UpdateLine line (nextQuantity q)
  | Remove => RemoveLines [line]
  end.

(** Activating a button: nothing is submitted while it is disabled. *)
Definition activate (c : control) (line : string) (q : Z)
           (optimistic : bool) : option PendingIntent :=
  if control_disabled c q optimistic then None
  else Some (control_intent c line q).

(** *** What [CartMain] and [CartBanner] show of a cart *)

Record CartMain_view : Type := {
  empty_hidden : bool;
  shown_lines : list CartLine;
  summary_shown : bool
}.

(** [CartMain], given the value of [useOptimisticCart(originalCart)]: the
    [hidden] flag of [CartEmpty], the lines handed to [CartLineItem] and
    whether [CartSummary] is rendered. *)
Definition CartMain (cart : option ProjectedCart) : CartMain_view :=
  let nodes := match cart with Some c => p_lines c | None => [] end in
  {| empty_hidden := negb (Nat.eqb (List.length nodes) 0);
     shown_lines := nodes;
     summary_shown :=
       match cart with
       | Some c => 0 <? p_totalQuantity c
       | None => false
       end |}.

(** [CartBanner]: [cart?.totalQuantity ?? 0]. *)
Definition CartBanner (cart : option ProjectedCart) : Z :=
  nullish (option_map p_totalQuantity cart) 0.

(** *** The optimistic projection *)

(** Modelled from the spec: the body of the SDK hook [useOptimisticCart]
    is not part of the sources; the effect of one pending intent on the
    lines follows section 4.2.  [AddLine] increments the first line with
    the same merchandise or appends a new line (whose id, price and
    attributes the spec leaves open). *)
Fixpoint add_line (m : string) (q : Z) (ls : list CartLine)
  : list CartLine :=
  match ls with
  | [] => [ {| lineId := "optimistic:" ++ m; merchandiseId := m;
               quantity := q; unitPrice := 0; attributes := [] |} ]
  | l :: rest =>
      if (merchandiseId l =? m)%string
      then set_quantity (quantity l + q) l :: rest
      else l :: add_line m q rest
  end.

(** Modelled from the spec: [UpdateLine] (section 4.2, the hook's body is
    not part of the sources) sets the quantity, clamped at floor 0; a
    resulting quantity 0 removes the line. *)
Definition update_line (i : string) (q : Z) (ls : list CartLine)
  : list CartLine :=
  let q' := Z.max 0 q in
  if q' =? 0
  then filter (fun l => negb (lineId l =? i)%string) ls
  else map (fun l => if (lineId l =? i)%string then set_quantity q' l else l)
           ls.

(** Modelled from the spec: [RemoveLines] (section 4.2) filters out the
    named line ids. *)
Definition remove_lines (ids : list string) (ls : list CartLine)
  : list CartLine :=
  filter (fun l => negb (existsb (String.eqb (lineId l)) ids)) ls.

(** Modelled from the spec: codes are appended deduplicated and
    case-sensitively (section 4.2). *)
Definition add_code (cs : list string) (c : string) : list string :=
  if existsb (String.eqb c) cs then cs else cs ++ [c].

(** Modelled from the spec: one step of the fold of section 3 over the
    pending queue, standing for the absent body of [useOptimisticCart].
    The intent is applied, [totalQuantity] is recomputed as the sum of the
    line quantities and the projection is marked optimistic. *)
Definition apply_intent (c : ProjectedCart) (i : PendingIntent)
  : ProjectedCart :=
  let ls :=
    match i with
    | AddLine m q => add_line m q (p_lines c)
    | UpdateLine l q => update_line l q (p_lines c)
    | RemoveLines ids => remove_lines ids (p_lines c)
    | _ => p_lines c
    end in
  {| p_lines := ls;
     p_discountCodes :=
       match i with
       | ApplyDiscount codes => fold_left add_code codes (p_discountCodes c)
       | _ => p_discountCodes c
       end;
     p_giftCardCodes :=
       match i with
       | ApplyGiftCard code => add_code (p_giftCardCodes c) code
       | _ => p_giftCardCodes c
       end;
     p_totalQuantity := sum_quantities ls;
     p_cost := p_cost c;
     isOptimistic := true |}.

(** Modelled from the spec: [project(snapshot, intents)], the fold of the
    pending intents, in submission order, over the confirmed snapshot
    (sections 3 and 4.2); it stands for [useOptimisticCart], whose body is
    not part of the sources. *)
Definition project (s : CartSnapshot) (intents : list PendingIntent)
  : ProjectedCart :=
  fold_left apply_intent intents (plain s).

(** The [UpdateLine] intents for a list of (line id, quantity) pairs. *)
Definition updates (us : list (string * Z)) : list PendingIntent :=
  map (fun u => UpdateLine (fst u) (snd u)) us.

(** The invariants of a confirmed snapshot: line ids are unique keys,
    quantities are not negative and [totalQuantity] is their sum. *)
Definition unique_ids (s : CartSnapshot) : Prop :=
  NoDup (map lineId (lines s)).

Definition quantities_nonneg (ls : list CartLine) : Prop :=
  Forall (fun l => 0 <= quantity l) ls.

Definition total_consistent (s : CartSnapshot) : Prop :=
  totalQuantity s = sum_quantities (lines s).

(** A confirmed cart with two lines, three items in all. *)
Definition example_line : CartLine :=
  {| lineId := "gid://shopify/CartLine/1";
     merchandiseId := "gid://shopify/ProductVariant/10";
     quantity := 2; unitPrice := 1500; attributes := [] |}.

Definition example_snapshot : CartSnapshot :=
  {| lines :=
       [ example_line;
         {| lineId := "gid://shopify/CartLine/2";
            merchandiseId := "gid://shopify/ProductVariant/20";
            quantity := 1; unitPrice := 900; attributes := [] |} ];
     discountCodes := [];
     giftCardCodes := [];
     totalQuantity := 3;
     cost := 3900 |}.

End Cart.

(** ** [CartSummary]: renders of the gift card form, discount codes *)
Module CartForms.

(** [UpdateGiftCardForm] calls [saveAppliedCode] on every render that sees
    the code in [fetcher.formData]; the refs after such renders for the
    codes [codes], oldest first. *)
Definition renders (codes : list string) (st : CartSummary.GiftCardState)
  : CartSummary.GiftCardState :=
  fold_left (fun s code => CartSummary.saveAppliedCode code s) codes st.

(** No character of [s] is matched by [\s]. *)
Fixpoint no_space (s : string) : bool :=
  match s with
  | EmptyString => true
  | String c rest => negb (CartSummary.is_space c) && no_space rest
  end.

(** An entry of [cart.discountCodes]. *)
Record DiscountCode : Type := {
  code : string;
  applicable : bool
}.



(** [codes?.join(', ')] *)
Fixpoint join (sep : string) (l : list string) : string :=
  match l with
  | [] => ""
  | [x] => x
  | x :: rest => x ++ sep ++ join sep rest
  end.




(** [withDiscount] of [CartMain], for a cart that is present:
    [Boolean(cart?.discountCodes?.filter((code) => code.applicable)?.length)],
    and the resulting class name. *)
Definition CartMain_withDiscount (discountCodes : option (list DiscountCode))
  : bool :=
  match discountCodes with
  | Some ds => negb (Nat.eqb (List.length (filter applicable ds)) 0)
  | None => false
  end.

Definition CartMain_className (cart : option (option (list DiscountCode)))
  : string :=
  "cart-main "
  ++ (if match cart with
         | Some discountCodes => CartMain_withDiscount discountCodes
         | None => false
         end
      then "with-discount" else "").

End CartForms.

(** ** [ProductForm.tsx] *)
Module ProductForm.

(** The fields of [selectedVariant] the form reads. *)
Record Variant : Type := {
  id : string;
  availableForSale : bool
}.

(** An [OptimisticCartLineInput] as the form builds it. *)
Record LineInput : Type := {
  merchandiseId : string;
  quantity : Z;
  selectedVariant : Variant
}.

(** [disabled={!selectedVariant || !selectedVariant.availableForSale}] *)
Definition disabled (sv : option Variant) : bool :=
  match sv with
  | None => true
  | Some v => negb (availableForSale v)
  end.

(** [lines={selectedVariant ? [{merchandiseId, quantity: 1,
    selectedVariant}] : []}] *)
Definition lines (sv : option Variant) : list LineInput :=
  match sv with
  | Some v => [ {| merchandiseId := id v; quantity := 1%Z;
                   selectedVariant := v |} ]
  | None => []
  end.

(** [selectedVariant?.availableForSale ? 'Add to cart' : 'Sold out'] *)
Definition label (sv : option Variant) : string :=
  match sv with
  | Some v => if availableForSale v then "Add to cart" else "Sold out"
  | None => "Sold out"
  end.

(** The [disabled] attribute of the button [AddToCartButton] renders for
    the form, while the cart fetcher is in [state]. *)
Definition button_disabled (sv : option Variant)
           (state : AddToCartButton.FetcherState) : bool :=
  AddToCartButton.button_disabled (Some (disabled sv)) state.

(** A click on the button: a disabled button receives no click; an
    enabled one runs [onClick], which opens the cart aside, and submits
    the form with [lines]. *)
Definition click (sv : option Variant) (state : AddToCartButton.FetcherState)
           (aside : Aside.AsideType)
  : Aside.AsideType * option (list LineInput) :=
  if button_disabled sv state then (aside, None)
  else (Aside.step aside (Aside.Open Aside.cart), Some (lines sv)).

End ProductForm.

(** ** [PaginatedResourceSection.tsx] *)
Module PaginatedResourceSection.

(** [nodes.map((node, index) => f({node, index}))], counting from [i]. *)
Fixpoint map_index {A B : Type} (f : A -> nat -> B) (i : nat) (nodes : list A)
  : list B :=
  match nodes with
  | [] => []
  | node :: rest => f node i :: map_index f (S i) rest
  end.

(** [resoucesMarkup] *)
Definition resoucesMarkup {A B : Type} (children : A -> nat -> B)
           (nodes : list A) : list B :=
  map_index children 0 nodes.

(** What the section renders: the text of the two links, the class of the
    wrapping [div] if there is one, and the resources. *)
Record view (B : Type) : Type := {
  previous_text : string;
  wrapper_class : option string;
  resources : list B;
  next_text : string
}.
Arguments previous_text {B} _.
Arguments wrapper_class {B} _.
Arguments resources {B} _.
Arguments next_text {B} _.

Definition render {A B : Type} (children : A -> nat -> B) (nodes : list A)
           (isLoading : bool) (resourcesClassName : option string) : view B :=
  {| previous_text := if isLoading then "Loading..." else "↑ Load previous";
     wrapper_class :=
       match resourcesClassName with
       | Some c => if (c =? "")%string then None else Some c
       | None => None
       end;
     resources := resoucesMarkup children nodes;
     next_text := if isLoading then "Loading..." else "Load more ↓" |}.

End PaginatedResourceSection.

(** ** [PageLayout.tsx]: the body of the search aside *)
Module SearchAside.

(** [SEARCH_ENDPOINT] of [SearchFormPredictive.tsx] *)
Definition SEARCH_ENDPOINT : string := "/search".

(** What the render prop of [SearchResultsPredictive] returns in
    [SearchAside]; the result sections themselves are left out of
    [Results], which keeps the target of the "view all" link. *)
Inductive body : Type :=
| Loading
| Nothing
| NoResults (term : string)
| Results (view_all : option string).

(** [SearchResultsPredictive.Empty] *)
Definition Empty (term : string) : body :=
  if (term =? "")%string then Nothing else NoResults term.

(** [state === 'loading'] *)
Definition is_loading (state : AddToCartButton.FetcherState) : bool :=
  match state with
  | AddToCartButton.loading => true
  | _ => false
  end.

(** The render prop, given [state], [term.current] and [total]. *)
Definition children (state : AddToCartButton.FetcherState) (term : string)
           (total : nat) : body :=
  if is_loading state && negb (term =? "")%string then Loading
  else if Nat.eqb total 0 then Empty term
       else Results (if (term =? "")%string then None
                     else Some (SEARCH_ENDPOINT ++ "?q=" ++ term)%string).

(** [goToSearch] of [SearchFormPredictive]: the route navigated to, for
    the value of the input if there is one, and the coordinator after
    [aside.close()]. *)
Definition goToSearch (input : option string) (aside : Aside.AsideType)
  : string * Aside.AsideType :=
  ((SEARCH_ENDPOINT
    ++ match input with
       | Some term => if (term =? "")%string then "" else "?q=" ++ term
       | None => ""
       end)%string,
   Aside.step aside Aside.Close).

End SearchAside.

(** ** Reading a rendered menu *)
Module MenuView.

(** The React [key] of a rendered link. *)
Definition element_key (e : Menu.element) : option string :=
  match e with
  | Menu.NavLink k _ _ => k
  | Menu.NewTabAnchor k _ _ => Some k
  end.

(** The item passes the test [if (!item.url) return null]. *)
Definition has_url (i : Menu.MenuItem) : bool :=
  match Menu.truthy (Menu.url i) with
  | Some _ => true
  | None => false
  end.

(** [item.url] of an item that has one. *)
Definition item_url (i : Menu.MenuItem) : string :=
  nullish (Menu.truthy (Menu.url i)) "".

(** The "Home" link [HeaderMenu] puts first in the mobile viewport. *)
Definition home (v : Menu.Viewport) : list Menu.element :=
  match v with
  | Menu.mobile => [Menu.NavLink None "/" "Home"]
  | Menu.desktop => []
  end.

(** A menu with a link to another site, an item without url and a link
    into the shop. *)
Definition example_menu : Menu.MenuT :=
  {| Menu.menu_id := "gid://shopify/Menu/1";
     Menu.items :=
       [ Menu.mkItem "gid://shopify/MenuItem/1" None [] "Partner" "HTTP"
                     (Some "https://partner.example.org/shop") [];
         Menu.mkItem "gid://shopify/MenuItem/2" None [] "Draft" "HTTP"
                     None [];
         Menu.mkItem "gid://shopify/MenuItem/3" None [] "About" "PAGE"
                     (Some "https://example.com/pages/about") [] ] |}.

End MenuView.

(** * Properties *)

(** ** Strings *)

Lemma prefix_iff (p s : string) :
  String.prefix p s = true <-> exists post, s = (p ++ post)%string.
Proof.
  revert s; induction p as [|c p IH]; intros s; simpl.
  - split; [intros _; now exists s | now destruct s].
  - destruct s as [|d s]; simpl.
    + split; [discriminate | intros [post H]; discriminate].
    + destruct (Ascii.ascii_dec c d) as [->|Hne].
      * rewrite IH. split; intros [post H]; exists post.
        -- now rewrite H.
        -- now inversion H.
      * split; [discriminate | intros [post H]; inversion H; congruence].
Qed.

(** [includes] decides the occurrence of [sub] somewhere inside [s]. *)
Lemma includes_iff (s sub : string) :
  includes s sub = true
  <-> exists pre post, s = (pre ++ sub ++ post)%string.
Proof.
  induction s as [|c s IH].
  - change (includes "" sub) with (if String.prefix sub "" then true else false).
    destruct (String.prefix sub "") eqn:E.
    + split; [intros _ | reflexivity].
      apply prefix_iff in E as [post H]. now exists ""%string, post.
    + split; [discriminate|].
      intros [pre [post H]]. destruct pre; simpl in H.
      * assert (String.prefix sub "" = true) by (apply prefix_iff; eauto).
        congruence.
      * discriminate.
  - change (includes (String c s) sub)
      with (if String.prefix sub (String c s) then true else includes s sub).
    destruct (String.prefix sub (String c s)) eqn:E.
    + split; [intros _ | reflexivity].
      apply prefix_iff in E as [post H]. now exists ""%string, post.
    + rewrite IH. split.
      * intros [pre [post H]]. exists (String c pre), post. now rewrite H.
      * intros [pre [post H]]. destruct pre as [|d pre]; simpl in H.
        -- assert (String.prefix sub (String c s) = true)
             by (apply prefix_iff; eauto).
           congruence.
        -- inversion H. eauto.
Qed.

(** ** The overlay coordinator *)

Lemma run_app (st : Aside.AsideType) (xs ys : list Aside.op) :
  Aside.run st (xs ++ ys) = Aside.run (Aside.run st xs) ys.
Proof. unfold Aside.run. apply fold_left_app. Qed.

Lemma expanded_iff (ty active : Aside.AsideType) :
  Aside.expanded ty active = true <-> ty = active.
Proof. destruct ty, active; simpl; split; congruence. Qed.

(** The state after a run is decided by the last call alone. *)
Lemma run_last (st : Aside.AsideType) (ops : list Aside.op) :
  Aside.run st ops =
  match last (map Some ops) None with
  | Some (Aside.Open p) => p
  | Some Aside.Close => Aside.closed
  | None => st
  end.
Proof.
  induction ops as [|o pre _] using rev_ind; [reflexivity|].
  rewrite run_app, map_app. simpl map. rewrite last_last.
  now destruct o.
Qed.

Lemma last_cons_default {A : Type} (xs : list A) (x d : A) :
  last (x :: xs) d = last xs x.
Proof.
  revert x d; induction xs as [|y xs IH]; intros x d; [reflexivity|].
  change (last (x :: y :: xs) d) with (last (y :: xs) d).
  now rewrite !IH.
Qed.

(** After [open(p)] followed by further [open]s the last target wins. *)
Lemma run_opens (st p : Aside.AsideType) (opens : list Aside.AsideType) :
  Aside.run st (Aside.Open p :: map Aside.Open opens) = last opens p.
Proof.
  revert st p; induction opens as [|q opens IH]; intros st p; [reflexivity|].
  change (Aside.run st (Aside.Open p :: map Aside.Open (q :: opens)))
    with (Aside.run (Aside.step st (Aside.Open p))
                    (Aside.Open q :: map Aside.Open opens)).
  now rewrite IH, last_cons_default.
Qed.

(** C1: from the initial state ['closed'], after any sequence of calls
    [current()] is the target of the most recent [open] when no [close]
    came after it, and ['closed'] once a [close] is the last call (or when
    nothing was called); and at every point exactly one of the four values
    ['closed'], ['search'], ['cart'], ['mobile'] is the active one. *)
Theorem current_is_last_open_until_close :
  Aside.current (Aside.run Aside.initial []) = Aside.closed
  /\ (forall pre p,
        Aside.current (Aside.run Aside.initial (pre ++ [Aside.Open p])) = p)
  /\ (forall pre p opens,
        Aside.current
          (Aside.run Aside.initial
             (pre ++ Aside.Open p :: map Aside.Open opens))
        = last opens p)
  /\ (forall pre,
        Aside.current (Aside.run Aside.initial (pre ++ [Aside.Close]))
        = Aside.closed)
  /\ (forall ops,
        filter (fun ty =>
                  Aside.expanded ty
                    (Aside.current (Aside.run Aside.initial ops)))
               Aside.all_types
        = [Aside.current (Aside.run Aside.initial ops)]).
Proof.
  repeat split.
  - intros pre p. now rewrite run_app.
  - intros pre p opens. rewrite run_app. apply run_opens.
  - intros pre. now rewrite run_app.
  - intros ops. now destruct (Aside.current (Aside.run Aside.initial ops)).
Qed.

(** C8: [open(p)] on a coordinator that already shows [p] leaves [p], so
    [open(p); open(p)] is [open(p)]; [close()] on a closed coordinator
    leaves it closed, so [close(); close()] is [close()]; and [open] stores
    whatever member of the enumeration it is given, without validation. *)
Theorem open_close_idempotent :
  (forall st p,
      Aside.step (Aside.step st (Aside.Open p)) (Aside.Open p)
      = Aside.step st (Aside.Open p))
  /\ (forall p, Aside.step p (Aside.Open p) = p)
  /\ (forall st,
         Aside.step (Aside.step st Aside.Close) Aside.Close
         = Aside.step st Aside.Close)
  /\ Aside.step Aside.closed Aside.Close = Aside.closed
  /\ (forall st mode, Aside.current (Aside.step st (Aside.Open mode)) = mode).
Proof. repeat split. Qed.

(** C5: outside a provider [useAside] throws an error whose message names
    the missing [AsideProvider] and returns no default; inside a provider
    it returns the provider's value and never throws. *)
Theorem useAside_fails_fast :
  Aside.useAside Aside.AsideContext_default
  = Throw "useAside must be used within an AsideProvider"
  /\ includes Aside.useAside_message "AsideProvider" = true
  /\ (forall v, Aside.useAside Aside.AsideContext_default <> Ok v)
  /\ (forall v, Aside.useAside (Some v) = Ok v)
  /\ (forall st ops,
         Aside.useAside (Some (Aside.AsideProvider (Aside.run st ops)))
         = Ok (Aside.AsideProvider (Aside.run st ops))).
Proof. repeat split; intros; discriminate. Qed.

(** The listeners of the asides alone, for every layout. *)
Lemma aside_listeners_count (hasMobileMenu : bool) (active : Aside.AsideType) :
  List.length
    (flat_map (fun ty => Aside.Aside_effect ty active)
              (Aside.PageLayout_asides hasMobileMenu))
  = match active with
    | Aside.closed => 0
    | Aside.mobile => if hasMobileMenu then 1 else 0
    | _ => 1
    end.
Proof. now destruct hasMobileMenu, active. Qed.

(** The listener of a mounted [SearchForm] never calls [close]; on Escape
    it only blurs its input. *)
Lemma handleKeyDown_no_close (event : Aside.KeyboardEvent) :
  Aside.close_calls (Aside.handleKeyDown event) = 0.
Proof.
  unfold Aside.handleKeyDown.
  destruct (Aside.key event =? "k")%string, (Aside.metaKey event),
    (Aside.key event =? "Escape")%string; reflexivity.
Qed.

(** C6: while the search panel is active exactly one aside listener is on
    the document and an Escape keydown makes exactly one [close()] call,
    after which the coordinator is closed; while no panel is active no
    aside listener is installed, Escape makes no [close()] call, the
    coordinator stays closed, and in the page layout no listener reacts at
    all. *)
Theorem escape_closes_search_once :
  forall (hasMobileMenu searchForm meta : bool),
    let esc := {| Aside.key := "Escape"; Aside.metaKey := meta |} in
    List.length
      (flat_map (fun ty => Aside.Aside_effect ty Aside.search)
                (Aside.PageLayout_asides hasMobileMenu)) = 1
    /\ Aside.close_calls
         (Aside.dispatch
            (Aside.document_listeners hasMobileMenu searchForm Aside.search)
            esc) = 1
    /\ Aside.keydown hasMobileMenu searchForm Aside.search esc = Aside.closed
    /\ flat_map (fun ty => Aside.Aside_effect ty Aside.closed)
                (Aside.PageLayout_asides hasMobileMenu) = []
    /\ Aside.close_calls
         (Aside.dispatch
            (Aside.document_listeners hasMobileMenu searchForm Aside.closed)
            esc) = 0
    /\ Aside.keydown hasMobileMenu searchForm Aside.closed esc = Aside.closed
    /\ Aside.dispatch
         (Aside.document_listeners hasMobileMenu false Aside.closed) esc = [].
Proof.
  intros hasMobileMenu searchForm meta esc.
  destruct hasMobileMenu, searchForm, meta; repeat split.
Qed.

(** ** The add-to-cart button *)

(** C10: without a [disabled] prop the submit button is disabled exactly
    when the fetcher is not idle; with a [disabled] prop, true or false,
    that value alone is the button's [disabled] attribute. *)
Theorem add_to_cart_disabled :
  (forall state,
      AddToCartButton.button_disabled None state = true
      <-> state <> AddToCartButton.idle)
  /\ (forall b state, AddToCartButton.button_disabled (Some b) state = b).
Proof.
  split; [|reflexivity].
  intros state; destruct state; simpl; split; congruence.
Qed.

(** ** The gift card controls *)

(** Whatever the refs hold, the handler bound on "Remove" leaves them as
    they are. *)
Lemma Remove_onSubmit_keeps_state (st : CartSummary.GiftCardState) :
  fst (CartSummary.Remove_onSubmit st) = st
  /\ fst (CartSummary.Remove_activate st) = st.
Proof. split; reflexivity. Qed.

(** C9 (the code at the failing input): after the code ["GIFT 1234"] was
    applied, activating "Remove" leaves [appliedGiftCardCodes] at
    [["GIFT1234"]]; only a call of [removeAppliedCode], which the handler
    never makes, would empty it. *)
Theorem gift_card_remove_keeps_codes :
  let st := CartSummary.saveAppliedCode "GIFT 1234"
              (CartSummary.initial "GIFT 1234") in
  CartSummary.appliedGiftCardCodes st = ["GIFT1234"]
  /\ CartSummary.appliedGiftCardCodes (fst (CartSummary.Remove_activate st))
     = ["GIFT1234"]
  /\ CartSummary.appliedGiftCardCodes (fst (CartSummary.Remove_onSubmit st))
     = ["GIFT1234"]
  /\ CartSummary.appliedGiftCardCodes
       (snd (CartSummary.Remove_onSubmit st) st) = [].
Proof. repeat split. Qed.

(** ** Menus *)

(** Without a footer menu the guard of [Footer] renders no link at all,
    whatever the header and the store domain are. *)
Lemma Footer_without_menu (header : Menu.HeaderQuery) (pub : string) :
  Menu.Footer (Some {| Menu.footer_menu := None |}) header pub = Ok []
  /\ Menu.Footer None header pub = Ok [].
Proof. split; reflexivity. Qed.

(** The header falls back to the four hardcoded items, ids and urls
    verbatim, whenever none of the fallback urls tests as internal. *)
Lemma Header_fallback_verbatim (prim pub : string) :
  Forall (fun i => Menu.is_internal (nullish (Menu.url i) "") pub prim = false)
         (Menu.items Menu.FALLBACK_HEADER_MENU) ->
  Menu.HeaderMenu None prim Menu.desktop pub
  = Ok [ Menu.NavLink (Some "gid://shopify/MenuItem/461609500728")
                      "/collections" "Collections";
         Menu.NavLink (Some "gid://shopify/MenuItem/461609533496")
                      "/blogs/journal" "Blog";
         Menu.NavLink (Some "gid://shopify/MenuItem/461609566264")
                      "/policies" "Policies";
         Menu.NavLink (Some "gid://shopify/MenuItem/461609599032")
                      "/pages/about" "About" ].
Proof.
  intros H.
  unfold Menu.FALLBACK_HEADER_MENU in H; cbn [Menu.items] in H.
  repeat match goal with
         | H : Forall _ (_ :: _) |- _ => inversion H; subst; clear H
         end.
  cbn [Menu.url nullish] in *.
  unfold Menu.HeaderMenu, Menu.FALLBACK_HEADER_MENU, nullish, Menu.items,
    Menu.map_items, Menu.HeaderMenu_item, Menu.link_url.
  cbn [Menu.url Menu.truthy Menu.id Menu.title String.eqb Ascii.eqb Bool.eqb].
  repeat match goal with
         | H : Menu.is_internal _ _ _ = false |- _ => rewrite H; clear H
         end.
  reflexivity.
Qed.

(** C7 (the code at the failing input): when the footer query resolves
    with no menu, [Footer] renders no link, although [FooterMenu] itself
    would fall back to the four hardcoded policy links; the header does
    render its four hardcoded items. *)
Theorem footer_fallback_never_rendered :
  Menu.Footer (Some {| Menu.footer_menu := None |}) Menu.example_header
              "example.com" = Ok []
  /\ Menu.FooterMenu None "https://example.com" "example.com"
     = Ok [ Menu.NavLink (Some "gid://shopify/MenuItem/461633060920")
                         "/policies/privacy-policy" "Privacy Policy";
            Menu.NavLink (Some "gid://shopify/MenuItem/461633093688")
                         "/policies/refund-policy" "Refund Policy";
            Menu.NavLink (Some "gid://shopify/MenuItem/461633126456")
                         "/policies/shipping-policy" "Shipping Policy";
            Menu.NavLink (Some "gid://shopify/MenuItem/461633159224")
                         "/policies/terms-of-service" "Terms of Service" ]
  /\ Menu.Header Menu.example_header "example.com"
     = Ok [ Menu.NavLink (Some "gid://shopify/MenuItem/461609500728")
                         "/collections" "Collections";
            Menu.NavLink (Some "gid://shopify/MenuItem/461609533496")
                         "/blogs/journal" "Blog";
            Menu.NavLink (Some "gid://shopify/MenuItem/461609566264")
                         "/policies" "Policies";
            Menu.NavLink (Some "gid://shopify/MenuItem/461609599032")
                         "/pages/about" "About" ].
Proof. repeat split. Qed.

(** C2 (counterexample): a link to another store whose path mentions
    [myshopify.com] has a host that contains none of the three domains, yet
    the menus classify it as internal and strip it to its path. *)
Lemma classifier_reads_whole_url :
  let item_url := "https://otherstore.com/blogs/myshopify.com-review" in
  URL.parse item_url
  = Ok {| URL.protocol := "https:"; URL.host := "otherstore.com";
          URL.pathname := "/blogs/myshopify.com-review" |}
  /\ Menu.spec_is_internal item_url "myshopify.com" "example.com"
                           "https://example.com" = false
  /\ Menu.spec_is_internal item_url "myshopify.com" "example.com"
                           "example.com" = false
  /\ Menu.is_internal item_url "example.com" "https://example.com" = true
  /\ Menu.link_url item_url "example.com" "https://example.com"
     = Ok "/blogs/myshopify.com-review".
Proof. repeat split. Qed.

Lemma is_internal_iff (item_url pub prim : string) :
  Menu.is_internal item_url pub prim = true
  <-> exists d pre post,
      In d ["myshopify.com"; pub; prim]
      /\ item_url = (pre ++ d ++ post)%string.
Proof.
  unfold Menu.is_internal. rewrite !orb_true_iff, !includes_iff. split.
  - intros [[(pre & post & H)|(pre & post & H)]|(pre & post & H)];
      eexists _, pre, post; (split; [|exact H]); simpl; auto.
  - intros (d & pre & post & Hd & H). simpl in Hd.
    destruct Hd as [<-|[<-|[<-|[]]]]; eauto.
Qed.

(** C2 (as amended): a link is internal exactly when its url string, as a
    whole, contains ["myshopify.com"], the public store domain or the
    primary domain url; an internal link is rendered with the pathname of
    its parsed url, any other link with its url unchanged; the footer
    renders a link as a new-tab anchor exactly when the resulting url does
    not start with ["/"], and the header renders every link as a [NavLink].
    With the domain [example.myshopify.com],
    [https://example.myshopify.com/pages/about] becomes [/pages/about] and
    [https://otherstore.com/x] stays as it is, a new-tab anchor in the
    footer. *)
Theorem link_classification :
  forall (item_url pub prim : string),
    (Menu.is_internal item_url pub prim = true
     <-> exists d pre post,
         In d ["myshopify.com"; pub; prim]
         /\ item_url = (pre ++ d ++ post)%string)
    /\ Menu.link_url item_url pub prim
       = (if Menu.is_internal item_url pub prim
          then match URL.parse item_url with
               | Ok u => Ok (URL.pathname u)
               | Throw msg => Throw msg
               end
          else Ok item_url)
    /\ (forall i u,
           Menu.truthy (Menu.url i) = Some item_url ->
           Menu.link_url item_url pub prim = Ok u ->
           Menu.FooterMenu_item pub prim i
           = Ok (Some (if startsWith u "/"
                       then Menu.NavLink (Some (Menu.id i)) u (Menu.title i)
                       else Menu.NewTabAnchor (Menu.id i) u (Menu.title i)))
           /\ Menu.HeaderMenu_item pub prim i
              = Ok (Some (Menu.NavLink (Some (Menu.id i)) u (Menu.title i))))
    /\ Menu.link_url "https://example.myshopify.com/pages/about"
                     "example.myshopify.com" "https://example.myshopify.com"
       = Ok "/pages/about"
    /\ Menu.FooterMenu_item
         "example.myshopify.com" "https://example.myshopify.com"
         (Menu.mkItem "gid://1" None [] "Other" "HTTP"
                      (Some "https://otherstore.com/x") [])
       = Ok (Some (Menu.NewTabAnchor "gid://1" "https://otherstore.com/x"
                                     "Other")).
Proof.
  intros item_url pub prim.
  split; [apply is_internal_iff|].
  split; [reflexivity|].
  split; [|split; reflexivity].
  intros i u Hurl Hlink.
  unfold Menu.FooterMenu_item, Menu.HeaderMenu_item.
  rewrite Hurl, Hlink. split; [|reflexivity].
  now destruct (startsWith u "/").
Qed.

(** ** The cart *)

Section CartProjection.

Local Open Scope Z_scope.

(** C3: with an empty queue of pending intents the projection is the plain
    rendering of the snapshot: same lines and quantities, same codes, same
    [totalQuantity], not marked optimistic, so [CartMain] and the cart
    badge show the snapshot itself; and the projection is a function of the
    snapshot and the queue alone. *)
Theorem project_nil_is_plain :
  forall (s : Cart.CartSnapshot),
    Cart.project s [] = Cart.plain s
    /\ Cart.p_lines (Cart.project s []) = Cart.lines s
    /\ map Cart.quantity (Cart.p_lines (Cart.project s []))
       = map Cart.quantity (Cart.lines s)
    /\ Cart.p_discountCodes (Cart.project s []) = Cart.discountCodes s
    /\ Cart.p_giftCardCodes (Cart.project s []) = Cart.giftCardCodes s
    /\ Cart.p_totalQuantity (Cart.project s []) = Cart.totalQuantity s
    /\ Cart.isOptimistic (Cart.project s []) = false
    /\ Cart.shown_lines (Cart.CartMain (Some (Cart.project s [])))
       = Cart.lines s
    /\ Cart.CartBanner (Some (Cart.project s [])) = Cart.totalQuantity s
    /\ (forall s' intents intents',
           s = s' -> intents = intents' ->
           Cart.project s intents = Cart.project s' intents').
Proof.
  intros s. repeat split. intros s' intents intents' -> ->. reflexivity.
Qed.

(** The decrement path of the quantity controls clamps at floor 0. *)
Lemma prevQuantity_nonneg (q : Z) : 0 <= Cart.prevQuantity q.
Proof. unfold Cart.prevQuantity. lia. Qed.

(** An enabled quantity control of a line with a non-negative quantity
    never submits a negative quantity. *)
Lemma activate_nonneg (c : Cart.control) (line : string) (q : Z)
      (optimistic : bool) (line' : string) (q' : Z) :
  0 <= q ->
  Cart.activate c line q optimistic = Some (Cart.UpdateLine line' q') ->
  0 <= q'.
Proof.
  unfold Cart.activate, Cart.control_intent, Cart.nextQuantity.
  intros Hq H.
  destruct (Cart.control_disabled c q optimistic); [discriminate|].
  destruct c; inversion H; subst; [apply prevQuantity_nonneg | lia].
Qed.

Lemma update_line_nonneg (i : string) (q : Z) (ls : list Cart.CartLine) :
  Cart.quantities_nonneg ls ->
  Cart.quantities_nonneg (Cart.update_line i q ls).
Proof.
  unfold Cart.quantities_nonneg, Cart.update_line. intros H.
  destruct (Z.max 0 q =? 0).
  - rewrite Forall_forall in *. intros l Hl.
    apply filter_In in Hl as [Hl _]. auto.
  - rewrite Forall_forall in *. intros l Hl.
    apply in_map_iff in Hl as (l0 & <- & Hl0).
    destruct (Cart.lineId l0 =? i)%string; [simpl; lia | auto].
Qed.

(** Non-negative quantities are an invariant of any run of [UpdateLine]
    intents. *)
Lemma updates_nonneg (us : list (string * Z)) (c : Cart.ProjectedCart) :
  Cart.quantities_nonneg (Cart.p_lines c) ->
  Cart.quantities_nonneg
    (Cart.p_lines (fold_left Cart.apply_intent (Cart.updates us) c))
  /\ (us <> [] ->
      0 <= Cart.p_totalQuantity
             (fold_left Cart.apply_intent (Cart.updates us) c)).
Proof.
  revert c; induction us as [|u us IH] using rev_ind; intros c Hc.
  - split; [exact Hc | congruence].
  - unfold Cart.updates. rewrite map_app, fold_left_app. simpl.
    destruct (IH c Hc) as [Hls _].
    apply (update_line_nonneg (fst u) (snd u)) in Hls.
    split; [exact Hls|]. intros _.
    revert Hls. unfold Cart.updates.
    generalize (Cart.update_line (fst u) (snd u)
                  (Cart.p_lines
                     (fold_left Cart.apply_intent
                        (map (fun u0 => Cart.UpdateLine (fst u0) (snd u0)) us)
                        c))).
    intros ls Hls. induction Hls; simpl; lia.
Qed.

(** Filtering out the single line that carries an id lowers the sum of the
    quantities by that line's quantity. *)
Lemma sum_without_line (ls : list Cart.CartLine) (l : Cart.CartLine) :
  NoDup (map Cart.lineId ls) ->
  In l ls ->
  Cart.sum_quantities
    (filter (fun x => negb (Cart.lineId x =? Cart.lineId l)%string) ls)
  = Cart.sum_quantities ls - Cart.quantity l.
Proof.
  induction ls as [|h t IH]; intros Hnd Hin; [contradiction|].
  simpl in Hnd. inversion Hnd as [|? ? Hnotin Hnd']; subst.
  simpl. destruct (Cart.lineId h =? Cart.lineId l)%string eqn:E; simpl.
  - apply String.eqb_eq in E.
    assert (l = h) as ->.
    { destruct Hin as [->|Hin]; [reflexivity|].
      exfalso. apply Hnotin. rewrite E. now apply in_map. }
    replace (filter _ t) with t; [lia|].
    symmetry. apply forallb_filter_id. apply forallb_forall.
    intros x Hx. apply negb_true_iff, String.eqb_neq. intros Heq.
    apply Hnotin. rewrite <- Heq. now apply in_map.
  - destruct Hin as [->|Hin]; [rewrite String.eqb_refl in E; discriminate|].
    rewrite (IH Hnd' Hin). lia.
Qed.

(** A line that survives [UpdateLine i q] either carries the id [i] and
    the new, positive quantity, or is an untouched line of the cart. *)
Lemma in_update_line (i : string) (q : Z) (ls : list Cart.CartLine)
      (x : Cart.CartLine) :
  In x (Cart.update_line i q ls) ->
  (Cart.lineId x = i /\ 0 < Cart.quantity x)
  \/ (Cart.lineId x <> i /\ In x ls).
Proof.
  unfold Cart.update_line. destruct (Z.max 0 q =? 0) eqn:E; intros H.
  - apply filter_In in H as [H Hne]. right. split; [|exact H].
    now apply String.eqb_neq, negb_true_iff.
  - apply Z.eqb_neq in E.
    apply in_map_iff in H as (l0 & <- & Hl0).
    destruct (Cart.lineId l0 =? i)%string eqn:Ei.
    + left. apply String.eqb_eq in Ei. simpl. split; [exact Ei | lia].
    + right. apply String.eqb_neq in Ei. auto.
Qed.

(** After a run of [UpdateLine] intents every line that one of them named
    carries a positive quantity, whatever the snapshot held. *)
Lemma updates_touched_positive (us : list (string * Z))
      (c : Cart.ProjectedCart) (x : Cart.CartLine) :
  In x (Cart.p_lines (fold_left Cart.apply_intent (Cart.updates us) c)) ->
  In (Cart.lineId x) (map fst us) ->
  0 < Cart.quantity x.
Proof.
  revert x; induction us as [|u us IH] using rev_ind; intros x Hx Hid.
  - contradiction.
  - unfold Cart.updates in Hx. rewrite map_app, fold_left_app in Hx.
    simpl in Hx. apply in_update_line in Hx as [[_ Hpos]|[Hne Hx]].
    + exact Hpos.
    + apply IH; [exact Hx|].
      rewrite map_app in Hid. apply in_app_or in Hid as [Hid|Hid].
      * exact Hid.
      * simpl in Hid. destruct Hid as [Hid|[]]. congruence.
Qed.

(** C4: the decrement control never asks for a negative quantity; after
    any sequence of [UpdateLine] intents every line named by one of them
    has a positive quantity, and on a snapshot with non-negative quantities
    no line at all has a negative one; and on a snapshot with unique line
    ids and a consistent total, [UpdateLine] with quantity 0 removes the
    line and lowers [totalQuantity] by exactly its prior quantity. *)
Theorem update_line_never_negative :
  forall (s : Cart.CartSnapshot) (us : list (string * Z)) (l : Cart.CartLine),
    Cart.unique_ids s ->
    Cart.quantities_nonneg (Cart.lines s) ->
    Cart.total_consistent s ->
    In l (Cart.lines s) ->
    (forall q, 0 <= Cart.prevQuantity q)
    /\ (forall x,
           In x (Cart.p_lines (Cart.project s (Cart.updates us))) ->
           In (Cart.lineId x) (map fst us) ->
           0 < Cart.quantity x)
    /\ Cart.quantities_nonneg
         (Cart.p_lines (Cart.project s (Cart.updates us)))
    /\ Cart.p_lines (Cart.project s [Cart.UpdateLine (Cart.lineId l) 0])
       = filter (fun x => negb (Cart.lineId x =? Cart.lineId l)%string)
                (Cart.lines s)
    /\ ~ In (Cart.lineId l)
            (map Cart.lineId
               (Cart.p_lines
                  (Cart.project s [Cart.UpdateLine (Cart.lineId l) 0])))
    /\ Cart.p_totalQuantity
         (Cart.project s [Cart.UpdateLine (Cart.lineId l) 0])
       = Cart.totalQuantity s - Cart.quantity l.
Proof.
  intros s us l Hnd Hnn Htot Hin.
  split; [exact prevQuantity_nonneg|].
  split; [intros x; apply updates_touched_positive|].
  split; [now apply updates_nonneg|].
  split; [reflexivity|].
  split.
  - intros H. apply in_map_iff in H as (x & Hid & Hx).
    apply filter_In in Hx as [_ Hx].
    rewrite Hid, String.eqb_refl in Hx. discriminate.
  - unfold Cart.total_consistent in Htot. rewrite Htot.
    now apply sum_without_line.
Qed.

(** The example cart is a well-formed snapshot: setting its first line to 0
    leaves one item, and a run of updates that asks for a negative quantity
    leaves no negative line. *)
Lemma update_line_never_negative_example :
  Cart.unique_ids Cart.example_snapshot
  /\ Cart.quantities_nonneg (Cart.lines Cart.example_snapshot)
  /\ Cart.total_consistent Cart.example_snapshot
  /\ In Cart.example_line (Cart.lines Cart.example_snapshot)
  /\ Cart.quantities_nonneg
       (Cart.p_lines
          (Cart.project Cart.example_snapshot
             (Cart.updates [("gid://shopify/CartLine/2", -4);
                            ("gid://shopify/CartLine/1", 5)])))
  /\ Cart.p_totalQuantity
       (Cart.project Cart.example_snapshot
          [Cart.UpdateLine (Cart.lineId Cart.example_line) 0])
     = Cart.totalQuantity Cart.example_snapshot
       - Cart.quantity Cart.example_line.
Proof.
  assert (H1 : Cart.unique_ids Cart.example_snapshot).
  { unfold Cart.unique_ids; simpl.
    repeat constructor; simpl; intuition discriminate. }
  assert (H2 : Cart.quantities_nonneg (Cart.lines Cart.example_snapshot)).
  { unfold Cart.quantities_nonneg; simpl. repeat constructor; simpl; lia. }
  assert (H3 : Cart.total_consistent Cart.example_snapshot)
    by reflexivity.
  assert (H4 : In Cart.example_line (Cart.lines Cart.example_snapshot))
    by (simpl; auto).
  destruct (update_line_never_negative
              Cart.example_snapshot
              [("gid://shopify/CartLine/2", -4);
               ("gid://shopify/CartLine/1", 5)]
              Cart.example_line H1 H2 H3 H4)
    as (_ & _ & Hnn & _ & _ & Htot).
  repeat split; assumption.
Defined.

End CartProjection.

(** ** Further properties of the gift card and discount forms *)

Lemma remove_spaces_no_space (s : string) :
  CartForms.no_space (CartSummary.remove_spaces s) = true.
Proof.
  induction s as [|c s IH]; [reflexivity|]. simpl.
  destruct (CartSummary.is_space c) eqn:E; [exact IH|].
  simpl. now rewrite E, IH.
Qed.

Lemma remove_spaces_fixed (s : string) :
  CartForms.no_space s = true -> CartSummary.remove_spaces s = s.
Proof.
  induction s as [|c s IH]; [reflexivity|]. simpl.
  intros H. apply andb_true_iff in H as [Hc Hs].
  apply negb_true_iff in Hc. rewrite Hc. now rewrite IH.
Qed.

Lemma existsb_eqb_In (x : string) (l : list string) :
  existsb (String.eqb x) l = true <-> In x l.
Proof.
  rewrite existsb_exists. split.
  - intros [y [Hy E]]. apply String.eqb_eq in E. now subst.
  - intros H. exists x. split; [exact H | apply String.eqb_refl].
Qed.

Lemma NoDup_snoc {A : Type} (l : list A) (x : A) :
  NoDup l -> ~ In x l -> NoDup (l ++ [x]).
Proof.
  induction l as [|y l IH]; intros Hnd Hx; simpl.
  - constructor; [intros [] | constructor].
  - inversion Hnd as [|? ? Hy Hl]; subst. constructor.
    + intros Hin. apply in_app_or in Hin as [Hin|[->|[]]].
      * contradiction.
      * apply Hx. now left.
    + apply IH; [exact Hl|]. intros Hin. apply Hx. now right.
Qed.

(** One save keeps a duplicate-free, whitespace-free list as it is. *)
Lemma saveAppliedCode_keeps (code : string) (st : CartSummary.GiftCardState) :
  NoDup (CartSummary.appliedGiftCardCodes st) ->
  Forall (fun c => CartForms.no_space c = true)
         (CartSummary.appliedGiftCardCodes st) ->
  NoDup (CartSummary.appliedGiftCardCodes
           (CartSummary.saveAppliedCode code st))
  /\ Forall (fun c => CartForms.no_space c = true)
            (CartSummary.appliedGiftCardCodes
               (CartSummary.saveAppliedCode code st)).
Proof.
  intros Hnd Hns. unfold CartSummary.saveAppliedCode; simpl.
  destruct (existsb _ _) eqn:E; [now split|].
  split.
  - apply NoDup_snoc; [exact Hnd|].
    intros Hin. apply existsb_eqb_In in Hin. congruence.
  - apply Forall_app. split; [exact Hns|].
    constructor; [apply remove_spaces_no_space | constructor].
Qed.

Lemma renders_keep (codes : list string) (st : CartSummary.GiftCardState) :
  NoDup (CartSummary.appliedGiftCardCodes st) ->
  Forall (fun c => CartForms.no_space c = true)
         (CartSummary.appliedGiftCardCodes st) ->
  NoDup (CartSummary.appliedGiftCardCodes (CartForms.renders codes st))
  /\ Forall (fun c => CartForms.no_space c = true)
            (CartSummary.appliedGiftCardCodes (CartForms.renders codes st)).
Proof.
  revert st; induction codes as [|c codes IH]; intros st Hnd Hns.
  - now split.
  - destruct (saveAppliedCode_keeps c st Hnd Hns) as [H1 H2].
    exact (IH _ H1 H2).
Qed.

(** X1: however many times and with whatever codes the gift card form is
    rendered, the list of applied codes never holds a code twice. *)
Theorem applied_codes_never_repeat :
  forall (codes : list string) (input : string),
    NoDup (CartSummary.appliedGiftCardCodes
             (CartForms.renders codes (CartSummary.initial input))).
Proof.
  intros codes input.
  apply renders_keep; simpl; constructor.
Qed.


(** X3: saving a code is idempotent, and a code is saved as the same
    entry with or without its whitespace, so that repeated renders of the
    form while the fetcher still carries the code add it once. *)
Theorem saveAppliedCode_idempotent :
  forall (code : string) (st : CartSummary.GiftCardState),
    CartSummary.saveAppliedCode code (CartSummary.saveAppliedCode code st)
    = CartSummary.saveAppliedCode code st
    /\ CartSummary.saveAppliedCode (CartSummary.remove_spaces code) st
       = CartSummary.saveAppliedCode code st.
Proof.
  intros code st. split.
  - unfold CartSummary.saveAppliedCode; simpl.
    destruct (existsb (String.eqb (CartSummary.remove_spaces code))
                      (CartSummary.appliedGiftCardCodes st)) eqn:E.
    + now rewrite E.
    + rewrite existsb_app. simpl. rewrite String.eqb_refl.
      now rewrite orb_true_r.
  - unfold CartSummary.saveAppliedCode.
    now rewrite (remove_spaces_fixed _ (remove_spaces_no_space code)).
Qed.

(** X4: saving a code never drops or reorders an earlier one: the old
    list is kept as a prefix, at most one entry is appended, the saved
    code (without its whitespace) is in the list afterwards, and the input
    is cleared. *)
Theorem saveAppliedCode_appends :
  forall (code : string) (st : CartSummary.GiftCardState),
    (exists tail,
        CartSummary.appliedGiftCardCodes (CartSummary.saveAppliedCode code st)
        = CartSummary.appliedGiftCardCodes st ++ tail
        /\ List.length tail <= 1)
    /\ In (CartSummary.remove_spaces code)
          (CartSummary.appliedGiftCardCodes
             (CartSummary.saveAppliedCode code st))
    /\ CartSummary.giftCardCodeInput (CartSummary.saveAppliedCode code st)
       = "".
Proof.
  intros code st. unfold CartSummary.saveAppliedCode; simpl.
  destruct (existsb (String.eqb (CartSummary.remove_spaces code))
                    (CartSummary.appliedGiftCardCodes st)) eqn:E.
  - split; [exists []; rewrite app_nil_r; simpl; auto|].
    split; [now apply existsb_eqb_In | reflexivity].
  - split; [eexists; split; [reflexivity | simpl; auto]|].
    split; [apply in_or_app; right; now left | reflexivity].
Qed.

(** X5: "Remove" asks the server for an empty list of gift cards but
    leaves the stored codes alone, so the next "Apply" submits every code
    that was applied before the removal again. *)
Theorem remove_then_apply_resubmits :
  forall (code : string) (st : CartSummary.GiftCardState),
    CartSummary.giftCardCodes (snd (CartSummary.Remove_activate st)) = []
    /\ CartSummary.giftCardCodes
         (snd (CartSummary.Apply_activate
                 code (fst (CartSummary.Remove_activate st))))
       = CartSummary.appliedGiftCardCodes st.
Proof. intros code st. split; reflexivity. Qed.


(** ** Further properties of the quantity controls and of [CartMain] *)

(** X7: a quantity control submits nothing exactly when the line is
    optimistic, or when it is the decrease button of a line whose quantity
    is at most 1. *)
Theorem control_submits_nothing_iff :
  forall (c : Cart.control) (line : string) (q : Z) (optimistic : bool),
    Cart.activate c line q optimistic = None
    <-> optimistic = true \/ (c = Cart.Decrease /\ (q <= 1)%Z).
Proof.
  intros c line q optimistic. unfold Cart.activate.
  destruct optimistic.
  - replace (Cart.control_disabled c q true) with true
      by (destruct c; simpl; now rewrite ?orb_true_r).
    split; [intros _; now left | reflexivity].
  - destruct c; simpl.
    + rewrite orb_false_r. destruct (q <=? 1)%Z eqn:E.
      * apply Z.leb_le in E. split; [intros _; now right | reflexivity].
      * apply Z.leb_gt in E.
        split; [discriminate | intros [H|[_ H]]; [discriminate | lia]].
    + split; [discriminate | intros [H|[H _]]; discriminate].
    + split; [discriminate | intros [H|[H _]]; discriminate].
Qed.

(** X8: whenever the decrease button submits, it asks for the quantity
    minus one, which is at least 1: the button never sets a line to 0 and
    the floor of [prevQuantity] is never reached through it. *)
Theorem decrease_never_reaches_zero :
  forall (line : string) (q : Z) (optimistic : bool) (i : Cart.PendingIntent),
    Cart.activate Cart.Decrease line q optimistic = Some i ->
    i = Cart.UpdateLine line (q - 1) /\ (1 <= q - 1)%Z.
Proof.
  intros line q optimistic i. unfold Cart.activate; simpl.
  destruct (q <=? 1)%Z eqn:E; simpl; [discriminate|].
  apply Z.leb_gt in E.
  destruct optimistic; [discriminate|].
  intros H. inversion H; subst. unfold Cart.prevQuantity.
  split; [f_equal|]; lia.
Qed.

(** The decrease button of a line with quantity 3 asks for quantity 2. *)
Lemma decrease_never_reaches_zero_example :
  Cart.UpdateLine "gid://shopify/CartLine/1" (Cart.prevQuantity 3)
  = Cart.UpdateLine "gid://shopify/CartLine/1" (3 - 1)
  /\ (1 <= 3 - 1)%Z.
Proof.
  exact (decrease_never_reaches_zero
           "gid://shopify/CartLine/1" 3 false
           (Cart.UpdateLine "gid://shopify/CartLine/1" (Cart.prevQuantity 3))
           eq_refl).
Defined.

(** X9: increasing and then decreasing gives the quantity back for every
    quantity from 0 on, and decreasing and then increasing for every
    quantity from 1 on; below these the results are 0 and 1. *)
Theorem prev_next_round_trip :
  forall (q : Z),
    Cart.prevQuantity (Cart.nextQuantity q) = Z.max 0 q
    /\ Cart.nextQuantity (Cart.prevQuantity q) = Z.max 1 q.
Proof.
  intros q. unfold Cart.prevQuantity, Cart.nextQuantity. lia.
Qed.

(** X10: for a cart whose lines all have a positive quantity and whose
    [totalQuantity] is their sum, [CartMain] hides the empty-cart message
    exactly when it renders the summary. *)
Theorem empty_message_or_summary :
  forall (c : Cart.ProjectedCart),
    Forall (fun l => (0 < Cart.quantity l)%Z) (Cart.p_lines c) ->
    Cart.p_totalQuantity c = Cart.sum_quantities (Cart.p_lines c) ->
    Cart.empty_hidden (Cart.CartMain (Some c))
    = Cart.summary_shown (Cart.CartMain (Some c)).
Proof.
  intros c Hpos Htot. unfold Cart.CartMain; simpl. rewrite Htot.
  destruct (Cart.p_lines c) as [|l ls]; [reflexivity|].
  simpl. symmetry. apply Z.ltb_lt.
  inversion Hpos as [|? ? Hl Hls]; subst.
  assert (0 <= Cart.sum_quantities ls)%Z; [|lia].
  clear -Hls. induction Hls; simpl; lia.
Qed.

(** The example cart has two lines with positive quantities and a
    consistent total: the summary is rendered and the message hidden. *)
Lemma empty_message_or_summary_example :
  Cart.empty_hidden (Cart.CartMain (Some (Cart.plain Cart.example_snapshot)))
  = Cart.summary_shown
      (Cart.CartMain (Some (Cart.plain Cart.example_snapshot))).
Proof.
  apply (empty_message_or_summary (Cart.plain Cart.example_snapshot)).
  - simpl. repeat constructor.
  - reflexivity.
Defined.

(** ** Further properties of the overlay coordinator *)

Lemma fold_apply_no_close (acts : list Aside.action) (st : Aside.AsideType) :
  Aside.close_calls acts = 0 -> fold_left Aside.apply_action acts st = st.
Proof.
  revert st; induction acts as [|a acts IH]; intros st H; [reflexivity|].
  destruct a; try discriminate; simpl; apply IH; exact H.
Qed.

(** X11: a keydown changes the coordinator only when the key is Escape
    and the aside of the active panel is mounted, and then closes it; in
    particular, with the mobile menu aside not mounted, Escape leaves a
    coordinator that was opened on ['mobile'] as it is. *)
Theorem keydown_effect :
  forall (hasMobileMenu searchForm : bool) (st : Aside.AsideType)
         (event : Aside.KeyboardEvent),
    Aside.keydown hasMobileMenu searchForm st event
    = if (Aside.key event =? "Escape")%string
         && existsb (Aside.AsideType_eqb st)
                    (Aside.PageLayout_asides hasMobileMenu)
      then Aside.closed
      else st.
Proof.
  intros hasMobileMenu searchForm st event.
  unfold Aside.keydown, Aside.dispatch, Aside.document_listeners.
  rewrite flat_map_app, fold_left_app.
  assert (Hsf : forall s,
             fold_left Aside.apply_action
               (flat_map (fun l : Aside.listener => l event)
                         (if searchForm then [Aside.handleKeyDown] else []))
               s = s).
  { intros s. apply fold_apply_no_close.
    destruct searchForm; [|reflexivity].
    simpl. rewrite app_nil_r. apply handleKeyDown_no_close. }
  rewrite Hsf.
  destruct hasMobileMenu, st; simpl; unfold Aside.Aside_handler;
    destruct (Aside.key event =? "Escape")%string; reflexivity.
Qed.

Lemma close_calls_app (xs ys : list Aside.action) :
  Aside.close_calls (xs ++ ys)
  = Aside.close_calls xs + Aside.close_calls ys.
Proof. unfold Aside.close_calls. now rewrite filter_app, length_app. Qed.

(** X12: one keydown makes at most one [close()] call, whatever the
    layout, the active panel and the key: exactly one for Escape while the
    aside of the active panel is mounted, none otherwise. *)
Theorem keydown_close_calls :
  forall (hasMobileMenu searchForm : bool) (st : Aside.AsideType)
         (event : Aside.KeyboardEvent),
    Aside.close_calls
      (Aside.dispatch
         (Aside.document_listeners hasMobileMenu searchForm st) event)
    = if (Aside.key event =? "Escape")%string
         && existsb (Aside.AsideType_eqb st)
                    (Aside.PageLayout_asides hasMobileMenu)
      then 1 else 0.
Proof.
  intros hasMobileMenu searchForm st event.
  unfold Aside.dispatch, Aside.document_listeners.
  rewrite flat_map_app, close_calls_app.
  match goal with |- _ + ?calls = _ => replace calls with 0 end.
  - rewrite Nat.add_0_r.
    destruct hasMobileMenu, st; simpl; unfold Aside.Aside_handler;
      destruct (Aside.key event =? "Escape")%string; reflexivity.
  - destruct searchForm; [|reflexivity].
    simpl. rewrite app_nil_r. symmetry. apply handleKeyDown_no_close.
Qed.

(** ** Properties of the product form *)

(** X13: the add-to-cart button of the product form ignores the state of
    the cart fetcher, because the form always passes a [disabled] prop:
    it is enabled exactly when a variant is selected and available for
    sale, also while a submission is in flight, and exactly then its label
    is "Add to cart". *)
Theorem product_form_button :
  forall (sv : option ProductForm.Variant)
         (state : AddToCartButton.FetcherState),
    ProductForm.button_disabled sv state
    = ProductForm.button_disabled sv AddToCartButton.idle
    /\ (ProductForm.button_disabled sv state = false
        <-> exists v, sv = Some v /\ ProductForm.availableForSale v = true)
    /\ (ProductForm.button_disabled sv state = false
        <-> ProductForm.label sv = "Add to cart").
Proof.
  intros [v|] state; unfold ProductForm.button_disabled; simpl.
  - split; [reflexivity|]. destruct (ProductForm.availableForSale v) eqn:E.
    + split; split; try reflexivity. intros _. now exists v.
    + split; split; try discriminate.
      intros (w & Hw & Ha). inversion Hw; subst. congruence.
  - split; [reflexivity|]. split; split; try discriminate.
    intros (w & Hw & _). discriminate.
Qed.

(** X14: a click on the product form's button that submits anything
    submits exactly one line, of quantity 1, for the selected variant,
    which is available for sale, and leaves the cart aside open. *)
Theorem product_form_click :
  forall (sv : option ProductForm.Variant)
         (state : AddToCartButton.FetcherState)
         (aside aside' : Aside.AsideType)
         (ls : list ProductForm.LineInput),
    ProductForm.click sv state aside = (aside', Some ls) ->
    aside' = Aside.cart
    /\ exists v,
        sv = Some v
        /\ ProductForm.availableForSale v = true
        /\ ls = [ {| ProductForm.merchandiseId := ProductForm.id v;
                     ProductForm.quantity := 1%Z;
                     ProductForm.selectedVariant := v |} ].
Proof.
  intros sv state aside aside' ls. unfold ProductForm.click.
  destruct (ProductForm.button_disabled sv state) eqn:E; [discriminate|].
  intros H. inversion H; subst. split; [reflexivity|].
  destruct sv as [v|]; [|discriminate].
  exists v. unfold ProductForm.button_disabled in E; simpl in E.
  apply negb_false_iff in E. auto.
Qed.

(** A click while a submission for an available variant is in flight. *)
Lemma product_form_click_example :
  Aside.cart = Aside.cart
  /\ exists v,
      Some {| ProductForm.id := "gid://shopify/ProductVariant/10";
              ProductForm.availableForSale := true |} = Some v
      /\ ProductForm.availableForSale v = true
      /\ [ {| ProductForm.merchandiseId := "gid://shopify/ProductVariant/10";
              ProductForm.quantity := 1%Z;
              ProductForm.selectedVariant :=
                {| ProductForm.id := "gid://shopify/ProductVariant/10";
                   ProductForm.availableForSale := true |} |} ]
         = [ {| ProductForm.merchandiseId := ProductForm.id v;
                ProductForm.quantity := 1%Z;
                ProductForm.selectedVariant := v |} ].
Proof.
  exact (product_form_click
           (Some {| ProductForm.id := "gid://shopify/ProductVariant/10";
                    ProductForm.availableForSale := true |})
           AddToCartButton.submitting Aside.closed Aside.cart _ eq_refl).
Defined.

(** ** Further properties of the menus *)

(** What [map_items] returns when every item is rendered by [g]. *)
Lemma map_items_ok (f : Menu.MenuItem -> result (option Menu.element))
      (g : Menu.MenuItem -> Menu.element) (l : list Menu.MenuItem) :
  (forall i, In i l ->
             f i = Ok (if MenuView.has_url i then Some (g i) else None)) ->
  Menu.map_items f l = Ok (map g (filter MenuView.has_url l)).
Proof.
  induction l as [|i l IH]; intros H; [reflexivity|].
  simpl. rewrite (H i (or_introl eq_refl)).
  rewrite IH by (intros j Hj; apply H; now right).
  now destruct (MenuView.has_url i).
Qed.

(** The keys of what [map_items] returns, when it returns. *)
Lemma map_items_keys (f : Menu.MenuItem -> result (option Menu.element))
      (l : list Menu.MenuItem) (es : list Menu.element) :
  (forall i e, f i = Ok (Some e) ->
               MenuView.has_url i = true
               /\ MenuView.element_key e = Some (Menu.id i)) ->
  (forall i, f i = Ok None -> MenuView.has_url i = false) ->
  Menu.map_items f l = Ok es ->
  map MenuView.element_key es
  = map (fun i => Some (Menu.id i)) (filter MenuView.has_url l).
Proof.
  intros Hsome Hnone. revert es.
  induction l as [|i l IH]; intros es H; simpl in H.
  - now inversion H.
  - destruct (f i) as [[e|]|msg] eqn:Ef; [| |discriminate];
      destruct (Menu.map_items f l) as [es'|msg] eqn:El; try discriminate;
      inversion H; subst; simpl.
    + destruct (Hsome i e Ef) as [Hu Hk]. rewrite Hu. simpl.
      now rewrite Hk, (IH es' eq_refl).
    + rewrite (Hnone i Ef). now apply IH.
Qed.

Lemma HeaderMenu_item_some (pub prim : string) (i : Menu.MenuItem)
      (e : Menu.element) :
  Menu.HeaderMenu_item pub prim i = Ok (Some e) ->
  MenuView.has_url i = true /\ MenuView.element_key e = Some (Menu.id i).
Proof.
  unfold Menu.HeaderMenu_item, MenuView.has_url.
  destruct (Menu.truthy (Menu.url i)) as [u|]; [|discriminate].
  destruct (Menu.link_url u pub prim); [|discriminate].
  intros H. inversion H; subst. now split.
Qed.

Lemma HeaderMenu_item_none (pub prim : string) (i : Menu.MenuItem) :
  Menu.HeaderMenu_item pub prim i = Ok None -> MenuView.has_url i = false.
Proof.
  unfold Menu.HeaderMenu_item, MenuView.has_url.
  destruct (Menu.truthy (Menu.url i)) as [u|]; [|reflexivity].
  destruct (Menu.link_url u pub prim); discriminate.
Qed.

Lemma FooterMenu_item_some (pub prim : string) (i : Menu.MenuItem)
      (e : Menu.element) :
  Menu.FooterMenu_item pub prim i = Ok (Some e) ->
  MenuView.has_url i = true /\ MenuView.element_key e = Some (Menu.id i).
Proof.
  unfold Menu.FooterMenu_item, MenuView.has_url.
  destruct (Menu.truthy (Menu.url i)) as [u|]; [|discriminate].
  destruct (Menu.link_url u pub prim) as [w|]; [|discriminate].
  intros H. inversion H; subst. split; [reflexivity|].
  now destruct (startsWith w "/").
Qed.

Lemma FooterMenu_item_none (pub prim : string) (i : Menu.MenuItem) :
  Menu.FooterMenu_item pub prim i = Ok None -> MenuView.has_url i = false.
Proof.
  unfold Menu.FooterMenu_item, MenuView.has_url.
  destruct (Menu.truthy (Menu.url i)) as [u|]; [|reflexivity].
  destruct (Menu.link_url u pub prim); discriminate.
Qed.

(** X15: when the header menu renders, it renders exactly the items that
    have a url, in menu order and keyed by their ids, after the "Home"
    link in the mobile viewport; items without a url are skipped. *)
Theorem header_menu_keys :
  forall (menu : option Menu.MenuT) (prim pub : string) (v : Menu.Viewport)
         (es : list Menu.element),
    Menu.HeaderMenu menu prim v pub = Ok es ->
    map MenuView.element_key es
    = map MenuView.element_key (MenuView.home v)
      ++ map (fun i => Some (Menu.id i))
             (filter MenuView.has_url
                     (Menu.items (nullish menu Menu.FALLBACK_HEADER_MENU))).
Proof.
  intros menu prim pub v es. unfold Menu.HeaderMenu.
  destruct (Menu.map_items _ _) as [es'|msg] eqn:E; [|discriminate].
  intros H. inversion H; subst.
  apply (map_items_keys _ _ _ (HeaderMenu_item_some pub prim)
                        (HeaderMenu_item_none pub prim)) in E.
  destruct v; simpl; now rewrite E.
Qed.

(** The example menu in the mobile viewport: "Home", then the two items
    that have a url. *)
Lemma header_menu_keys_example :
  map MenuView.element_key
      [ Menu.NavLink None "/" "Home";
        Menu.NavLink (Some "gid://shopify/MenuItem/1")
                     "https://partner.example.org/shop" "Partner";
        Menu.NavLink (Some "gid://shopify/MenuItem/3")
                     "/pages/about" "About" ]
  = map MenuView.element_key (MenuView.home Menu.mobile)
    ++ map (fun i => Some (Menu.id i))
           (filter MenuView.has_url
                   (Menu.items
                      (nullish (Some MenuView.example_menu)
                               Menu.FALLBACK_HEADER_MENU))).
Proof.
  exact (header_menu_keys (Some MenuView.example_menu)
                          "https://example.com" "example.com" Menu.mobile
                          _ eq_refl).
Defined.

(** X16: when the footer menu renders, it renders exactly the items that
    have a url, in menu order and keyed by their ids, whether as links or
    as new-tab anchors. *)
Theorem footer_menu_keys :
  forall (menu : option Menu.MenuT) (prim pub : string)
         (es : list Menu.element),
    Menu.FooterMenu menu prim pub = Ok es ->
    map MenuView.element_key es
    = map (fun i => Some (Menu.id i))
          (filter MenuView.has_url
                  (Menu.items (nullish menu Menu.FALLBACK_FOOTER_MENU))).
Proof.
  intros menu prim pub es H.
  exact (map_items_keys _ _ _ (FooterMenu_item_some pub prim)
                        (FooterMenu_item_none pub prim) H).
Qed.

(** The example menu in the footer: an anchor and a link. *)
Lemma footer_menu_keys_example :
  map MenuView.element_key
      [ Menu.NewTabAnchor "gid://shopify/MenuItem/1"
                          "https://partner.example.org/shop" "Partner";
        Menu.NavLink (Some "gid://shopify/MenuItem/3")
                     "/pages/about" "About" ]
  = map (fun i => Some (Menu.id i))
        (filter MenuView.has_url
                (Menu.items
                   (nullish (Some MenuView.example_menu)
                            Menu.FALLBACK_FOOTER_MENU))).
Proof.
  exact (footer_menu_keys (Some MenuView.example_menu)
                          "https://example.com" "example.com" _ eq_refl).
Defined.

Lemma has_url_truthy (i : Menu.MenuItem) :
  Menu.truthy (Menu.url i)
  = if MenuView.has_url i then Some (MenuView.item_url i) else None.
Proof.
  unfold MenuView.has_url, MenuView.item_url.
  now destruct (Menu.truthy (Menu.url i)).
Qed.

(** X17: a menu none of whose urls tests as internal always renders (no
    url is parsed, nothing can throw) and every url is used verbatim: the
    header makes each item a [NavLink], the footer a [NavLink] when the
    url starts with ["/"] and a new-tab anchor otherwise. *)
Theorem external_menu_verbatim :
  forall (menu : Menu.MenuT) (prim pub : string) (v : Menu.Viewport),
    (forall i,
        In i (Menu.items menu) ->
        MenuView.has_url i = true ->
        Menu.is_internal (MenuView.item_url i) pub prim = false) ->
    Menu.HeaderMenu (Some menu) prim v pub
    = Ok (MenuView.home v
          ++ map (fun i => Menu.NavLink (Some (Menu.id i))
                                        (MenuView.item_url i) (Menu.title i))
                 (filter MenuView.has_url (Menu.items menu)))
    /\ Menu.FooterMenu (Some menu) prim pub
       = Ok (map (fun i =>
                    if startsWith (MenuView.item_url i) "/"
                    then Menu.NavLink (Some (Menu.id i))
                                      (MenuView.item_url i) (Menu.title i)
                    else Menu.NewTabAnchor (Menu.id i)
                                           (MenuView.item_url i)
                                           (Menu.title i))
                 (filter MenuView.has_url (Menu.items menu))).
Proof.
  intros menu prim pub v Hext. split.
  - unfold Menu.HeaderMenu. simpl nullish.
    rewrite (map_items_ok _
               (fun i => Menu.NavLink (Some (Menu.id i))
                                      (MenuView.item_url i) (Menu.title i))).
    + now destruct v.
    + intros i Hi. unfold Menu.HeaderMenu_item, Menu.link_url.
      rewrite has_url_truthy.
      destruct (MenuView.has_url i) eqn:E; [|reflexivity].
      now rewrite (Hext i Hi E).
  - unfold Menu.FooterMenu. simpl nullish. apply map_items_ok.
    intros i Hi. unfold Menu.FooterMenu_item, Menu.link_url.
    rewrite has_url_truthy.
    destruct (MenuView.has_url i) eqn:E; [|reflexivity].
    rewrite (Hext i Hi E).
    now destruct (startsWith (MenuView.item_url i) "/").
Qed.

(** For a shop at [shop.example.net] no url of the example menu is
    internal. *)
Lemma external_menu_verbatim_example :
  Menu.HeaderMenu (Some MenuView.example_menu) "https://shop.example.net"
                  Menu.mobile "shop.example.net"
  = Ok [ Menu.NavLink None "/" "Home";
         Menu.NavLink (Some "gid://shopify/MenuItem/1")
                      "https://partner.example.org/shop" "Partner";
         Menu.NavLink (Some "gid://shopify/MenuItem/3")
                      "https://example.com/pages/about" "About" ]
  /\ Menu.FooterMenu (Some MenuView.example_menu) "https://shop.example.net"
                     "shop.example.net"
     = Ok [ Menu.NewTabAnchor "gid://shopify/MenuItem/1"
                              "https://partner.example.org/shop" "Partner";
            Menu.NewTabAnchor "gid://shopify/MenuItem/3"
                              "https://example.com/pages/about" "About" ].
Proof.
  apply (external_menu_verbatim MenuView.example_menu
           "https://shop.example.net" "shop.example.net" Menu.mobile).
  intros i [<-|[<-|[<-|[]]]] _; reflexivity.
Defined.

(** A reference that starts with ["/"] is no absolute url. *)
Lemma parse_relative (u : string) :
  startsWith u "/" = true -> URL.parse u = Throw URL.invalid.
Proof.
  unfold startsWith. intros H.
  apply prefix_iff in H as [rest ->]. simpl append.
  unfold URL.parse.
  destruct (index 0 "://" (String "/" rest)) as [n|]; [|reflexivity].
  destruct (URL.span_until URL.ends_authority _) as [authority tail].
  destruct (URL.span_until URL.ends_path tail) as [path rest'].
  replace (URL.is_scheme (substring 0 n (String "/" rest))) with false;
    [reflexivity|].
  destruct n; reflexivity.
Qed.

(** X18: a relative url (one that starts with ["/"]) that tests as
    internal cannot be rendered: it is handed to [new URL], which throws
    [Invalid URL]. *)
Theorem relative_internal_url_throws :
  forall (item_url pub prim : string),
    startsWith item_url "/" = true ->
    Menu.is_internal item_url pub prim = true ->
    Menu.link_url item_url pub prim = Throw URL.invalid.
Proof.
  intros item_url pub prim Hrel Hint. unfold Menu.link_url.
  now rewrite Hint, (parse_relative _ Hrel).
Qed.

(** A relative link whose path mentions the platform domain. *)
Lemma relative_internal_url_throws_example :
  Menu.link_url "/pages/myshopify.com-guide" "example.com"
                "https://example.com"
  = Throw URL.invalid.
Proof.
  apply relative_internal_url_throws; reflexivity.
Defined.

Lemma includes_empty (s : string) : includes s "" = true.
Proof. now destruct s. Qed.

(** X19: with an empty public store domain every url tests as internal,
    and the hardcoded fallback menus, whose urls are relative, fail to
    render with [Invalid URL] in the header and in the footer. *)
Theorem empty_store_domain :
  forall (prim : string) (v : Menu.Viewport),
    (forall item_url, Menu.is_internal item_url "" prim = true)
    /\ Menu.HeaderMenu None prim v "" = Throw URL.invalid
    /\ Menu.FooterMenu None prim "" = Throw URL.invalid.
Proof.
  intros prim v. split; [|split].
  - intros item_url. unfold Menu.is_internal.
    now rewrite includes_empty, orb_true_r.
  - reflexivity.
  - reflexivity.
Qed.

(** ** Properties of the paginated section and of the search aside *)

Lemma map_index_nth {A B : Type} (f : A -> nat -> B) (nodes : list A)
      (start i : nat) :
  nth_error (PaginatedResourceSection.map_index f start nodes) i
  = option_map (fun node => f node (start + i)) (nth_error nodes i).
Proof.
  revert start i; induction nodes as [|n nodes IH]; intros start i.
  - now destruct i.
  - destruct i as [|i]; simpl.
    + now rewrite Nat.add_0_r.
    + rewrite IH. now rewrite Nat.add_succ_r.
Qed.

Lemma map_index_length {A B : Type} (f : A -> nat -> B) (nodes : list A)
      (start : nat) :
  List.length (PaginatedResourceSection.map_index f start nodes)
  = List.length nodes.
Proof.
  revert start; induction nodes as [|n nodes IH]; intros start;
    [reflexivity|]. simpl. now rewrite IH.
Qed.

(** X20: the paginated section renders one resource per node of the
    connection, in order, and hands each node its own 0-based position;
    loading and the wrapper class do not change the resources. *)
Theorem paginated_resources :
  forall (A B : Type) (children : A -> nat -> B) (nodes : list A)
         (isLoading : bool) (resourcesClassName : option string) (i : nat),
    List.length
      (PaginatedResourceSection.resources
         (PaginatedResourceSection.render
            children nodes isLoading resourcesClassName))
    = List.length nodes
    /\ nth_error
         (PaginatedResourceSection.resources
            (PaginatedResourceSection.render
               children nodes isLoading resourcesClassName)) i
       = option_map (fun node => children node i) (nth_error nodes i).
Proof.
  intros A B children nodes isLoading resourcesClassName i. simpl.
  unfold PaginatedResourceSection.resoucesMarkup. split.
  - apply map_index_length.
  - now rewrite map_index_nth.
Qed.

(** X21: in the search aside the loading indicator appears only while the
    fetcher is loading a non-empty term, the no-results message only for
    a non-empty term without results, and nothing at all exactly for an
    empty term without results. *)
Theorem search_aside_body :
  forall (state : AddToCartButton.FetcherState) (term : string)
         (total : nat),
    (SearchAside.children state term total = SearchAside.Loading
     <-> state = AddToCartButton.loading /\ term <> "")
    /\ (forall t,
           SearchAside.children state term total = SearchAside.NoResults t
           <-> t = term /\ term <> "" /\ total = 0
               /\ state <> AddToCartButton.loading)
    /\ (SearchAside.children state term total = SearchAside.Nothing
        <-> term = "" /\ total = 0).
Proof.
  intros state term total. unfold SearchAside.children, SearchAside.Empty.
  destruct (term =? "")%string eqn:Et;
    [apply String.eqb_eq in Et | apply String.eqb_neq in Et];
    destruct total as [|n]; destruct state; simpl;
    repeat split; try discriminate; try congruence;
    try (intros H; decompose [and] H; congruence);
    try (intros H; inversion H; subst; repeat split; congruence).
Qed.

(** X22: the "view all results" link of the search aside leads to the
    route the Search button navigates to for the same term, and following
    the button closes the aside. *)
Theorem view_all_matches_goToSearch :
  forall (state : AddToCartButton.FetcherState) (term target : string)
         (total : nat) (aside : Aside.AsideType),
    SearchAside.children state term total
    = SearchAside.Results (Some target) ->
    fst (SearchAside.goToSearch (Some term) aside) = target
    /\ snd (SearchAside.goToSearch (Some term) aside) = Aside.closed.
Proof.
  intros state term target total aside.
  unfold SearchAside.children, SearchAside.Empty, SearchAside.goToSearch.
  destruct (SearchAside.is_loading state && negb (term =? "")%string);
    [discriminate|].
  destruct (Nat.eqb total 0);
    [destruct (term =? "")%string; discriminate|].
  destruct (term =? "")%string; [discriminate|].
  intros H. inversion H; subst. split; reflexivity.
Qed.

(** Three results for the term "hat". *)
Lemma view_all_matches_goToSearch_example :
  fst (SearchAside.goToSearch (Some "hat") Aside.search) = "/search?q=hat"
  /\ snd (SearchAside.goToSearch (Some "hat") Aside.search) = Aside.closed.
Proof.
  exact (view_all_matches_goToSearch
           AddToCartButton.idle "hat" "/search?q=hat" 3 Aside.search
           eq_refl).
Defined.
